(** * PROJECT_B_SCHEDULER: the batch scheduler of [mvp_scheduler.py]

    A shallow embedding of [src/mvp_scheduler.py] and the properties of its
    slot matching and booking persistence.

    Modelling choices, all visible in the definitions below:
    - a [datetime] is a naive Python datetime (what the documented
      'YYYY-MM-DD HH:MM' format yields), held as its count of microseconds
      since 0001-01-01T00:00:00; naive datetimes are totally ordered and
      [d + timedelta] raises OverflowError outside year 1..9999; a timestamp
      written with a UTC offset, whose comparison with a naive one raises
      TypeError, is outside the model;
    - text is a [string] holding the UTF-8 bytes of the Python text;
      whitespace is every code point that [str.isspace] accepts;
    - a CSV file is the list of its records (each a list of fields), the
      level at which [csv.reader] and [csv.writer] exchange data;
      [csv.DictReader] is modelled on top of it; the bookings file, which is
      appended to, also records whether its last line lacks its line break,
      since the bytes of an appended row then continue that line;
    - the standard-library calls whose results come from outside the program
      ([datetime.fromisoformat], [isoformat], [strftime], [uuid.uuid4],
      [datetime.utcnow], the script directory) are the fields of the class
      [Runtime]; theorems hold for every runtime, and [Civil.runtime] is a
      computable one for the examples;
    - an uncaught Python exception ends the run: every operation returns
      [Ok] or [Raise], and the state reached so far is kept;
    - a write to a file always succeeds: disk failures (permissions, full
      disk) and an invite whose name points into a directory that does not
      exist (a requester name that holds a path separator) are outside the
      model; the statements on whole runs that depend on it are about runs
      that end normally. *)

From Stdlib Require Import ZArith Ascii String List Lia Bool.
From stdpp Require Import base gmap strings list pretty.

(** ** Python text operations *)

Module Py.

(** The text whose UTF-8 bytes are [l]. *)
Definition bytes (l : list nat) : string :=
  fold_right (fun n s => String (ascii_of_nat n) s) EmptyString l.

(** A continuation byte of UTF-8: 10xxxxxx. *)
Definition is_continuation (c : ascii) : bool :=
  let n := nat_of_ascii c in (128 <=? n)%nat && (n <? 192)%nat.

(** The code points of a text, each as its bytes: a continuation byte
    belongs to the code point of the byte before it. *)
Fixpoint chars (s : string) : list string :=
  match s with
  | EmptyString => []
  | String c s' =>
      match chars s' with
      | String c' ch :: rest =>
          if is_continuation c' then String c (String c' ch) :: rest
          else String c EmptyString :: String c' ch :: rest
      | rest => String c EmptyString :: rest
      end
  end.

(** The code points that [str.isspace] accepts: U+0009..U+000D,
    U+001C..U+0020, U+0085, U+00A0, U+1680, U+2000..U+200A, U+2028, U+2029,
    U+202F, U+205F and U+3000. *)
Definition whitespace : list string :=
  map bytes
    ([[9]; [10]; [11]; [12]; [13]; [28]; [29]; [30]; [31]; [32];
      [194; 133]; [194; 160]; [225; 154; 128]]
     ++ map (fun k => [226; 128; k]) (seq 128 11)
     ++ [[226; 128; 168]; [226; 128; 169]; [226; 128; 175]; [226; 129; 159];
         [227; 128; 128]])%nat.

Definition isspace (ch : string) : bool := existsb (String.eqb ch) whitespace.

Fixpoint lstrip (l : list string) : list string :=
  match l with
  | [] => []
  | ch :: rest => if isspace ch then lstrip rest else l
  end.

Definition rstrip (l : list string) : list string := rev (lstrip (rev l)).

(** [s.strip()]: the text without the whitespace at its two ends. *)
Definition strip (s : string) : string :=
  String.concat EmptyString (rstrip (lstrip (chars s))).

(** [s.split(sep)] for a one-character separator: never the empty list. *)
Fixpoint split_go (sep : ascii) (cur : string) (s : string) : list string :=
  match s with
  | EmptyString => [String.rev cur]
  | String c s' =>
      if Ascii.eqb c sep then String.rev cur :: split_go sep EmptyString s'
      else split_go sep (String c cur) s'
  end.

Definition split (sep : ascii) (s : string) : list string :=
  split_go sep EmptyString s.

(** [s.replace(old, new)] for one-character arguments. *)
Fixpoint replace (old new : ascii) (s : string) : string :=
  match s with
  | EmptyString => EmptyString
  | String c s' => String (if Ascii.eqb c old then new else c) (replace old new s')
  end.

(** Truthiness of a string: [if s:] *)
Definition truthy (s : string) : bool := negb (String.eqb s "").

(** The line that [print(a, b, ...)] writes, without its newline. *)
Definition print_line (args : list string) : string := String.concat " " args.

Definition nl : string := String (ascii_of_nat 10) EmptyString.

End Py.

(** ** CSV files and [csv.DictReader] *)

(** A file as [csv.reader] yields it: one list of fields per record. *)
Definition csv_file : Type := list (list string).

(** One row of a [DictReader]: the value of a column is a string, or Python's
    [None] (the default [restval]) when the record is shorter than the
    header. *)
Abbreviation dict_row := (gmap string (option string)).

(** [dict(zip(fieldnames, row))], then [restval] for the fields that the
    record is too short for.  Fields beyond the header go under the key
    [None], which no lookup of the program uses. *)
Fixpoint zip_row (fieldnames : list string) (record : list string)
    (d : dict_row) : dict_row :=
  match fieldnames with
  | [] => d
  | f :: fs =>
      match record with
      | v :: vs => zip_row fs vs (<[f := Some v]> d)
      | [] => zip_row fs [] (<[f := None]> d)
      end
  end.

Definition is_blank_record (r : list string) : bool :=
  match r with [] => true | _ => false end.

(** The rows of [csv.DictReader(f)]: the first record is the header, blank
    records are skipped. *)
Definition DictReader (f : csv_file) : list dict_row :=
  match f with
  | [] => []
  | fieldnames :: records =>
      map (fun r => zip_row fieldnames r ∅)
          (filter (fun r => is_blank_record r = false) records)
  end.

(** The bookings file: its records, and whether the last line of the file
    has no line break at its end (a file written by hand may; a file written
    by [csv.writer] never does, as [writerow] ends every row with one). *)
Record bookings_file : Type := mkFile {
  file_records : csv_file;
  unterminated : bool
}.

(** A file whose every line ends with its line break. *)
Definition closed_file (records : csv_file) : bookings_file :=
  mkFile records false.

(** The records of a file after the bytes of [row] are written right after a
    last line that had no line break: the first field of the row continues
    the last field of that line (for fields that need no quoting, as the
    timestamps of [isoformat]). *)
Definition glue (records : csv_file) (row : list string) : csv_file :=
  match List.rev records with
  | [] => [row]
  | last_record :: before =>
      match List.rev last_record, row with
      | last_field :: fields, first_field :: others =>
          List.rev before
          ++ [List.rev fields ++ [last_field +:+ first_field] ++ others]
      | _, _ => records ++ [row]
      end
  end.

(** [open('a')] and one [writer.writerow(row)] on an existing file. *)
Definition write_row (f : bookings_file) (row : list string) : bookings_file :=
  closed_file (if unterminated f then glue (file_records f) row
               else file_records f ++ [row]).

(** ** Datetimes *)

Definition datetime : Type := Z.

(** [datetime.max], 9999-12-31T23:59:59.999999. *)
Definition datetime_max : Z := 3652059 * 86400000000 - 1.

(** [timedelta(minutes=m)] in microseconds. *)
Definition timedelta_minutes (m : Z) : Z := m * 60000000.

Definition interval : Type := (datetime * datetime)%type.

(** ** Exceptions and the state of a run *)

Inductive exn : Type :=
  | KeyError (key : string)
  | AttributeError
  | TypeError
  | ValueError
  | OverflowError
  | SystemExit (code : Z).

Inductive result (A : Type) : Type :=
  | Ok (a : A)
  | Raise (e : exn).
Arguments Ok {A} a.
Arguments Raise {A} e.

(** The two durable writes of the program, in the order they happen. *)
Inductive io_event : Type :=
  | InviteWritten (path : string)
  | BookingAppended (start_dt end_dt : datetime).

(** One entry of [scheduled]: name, email, start text, invite path. *)
Definition scheduled_entry : Type := (string * string * string * string)%type.

(** The files the program touches, its console, and the two locals of
    [main] that live across requests. *)
Record state : Type := mkState {
  intake_csv : option csv_file;       (* INTAKE_CSV, None: no such file *)
  existing_csv : option bookings_file; (* EXISTING_CSV, None: no such file *)
  out_dir : gmap string string;       (* files written, by path *)
  stdout : list string;               (* one entry per print call *)
  drawn : nat;                        (* identifiers drawn so far *)
  journal : list io_event;            (* durable writes, oldest first *)
  bookings : list interval;           (* the local [bookings] *)
  scheduled : list scheduled_entry    (* the local [scheduled] *)
}.

Definition set_existing_csv (v : option bookings_file) (st : state) : state :=
  mkState (intake_csv st) v (out_dir st) (stdout st) (drawn st) (journal st)
          (bookings st) (scheduled st).
Definition set_out_dir (v : gmap string string) (st : state) : state :=
  mkState (intake_csv st) (existing_csv st) v (stdout st) (drawn st) (journal st)
          (bookings st) (scheduled st).
Definition set_stdout (v : list string) (st : state) : state :=
  mkState (intake_csv st) (existing_csv st) (out_dir st) v (drawn st) (journal st)
          (bookings st) (scheduled st).
Definition set_drawn (v : nat) (st : state) : state :=
  mkState (intake_csv st) (existing_csv st) (out_dir st) (stdout st) v (journal st)
          (bookings st) (scheduled st).
Definition set_journal (v : list io_event) (st : state) : state :=
  mkState (intake_csv st) (existing_csv st) (out_dir st) (stdout st) (drawn st) v
          (bookings st) (scheduled st).
Definition set_bookings (v : list interval) (st : state) : state :=
  mkState (intake_csv st) (existing_csv st) (out_dir st) (stdout st) (drawn st)
          (journal st) v (scheduled st).
Definition set_scheduled (v : list scheduled_entry) (st : state) : state :=
  mkState (intake_csv st) (existing_csv st) (out_dir st) (stdout st) (drawn st)
          (journal st) (bookings st) v.

(** A statement of the program: it may raise, and it leaves a state. *)
Definition M (A : Type) : Type := state -> result A * state.

Definition ret {A} (a : A) : M A := fun st => (Ok a, st).
Definition raise {A} (e : exn) : M A := fun st => (Raise e, st).
Definition bind {A B} (m : M A) (k : A -> M B) : M B :=
  fun st => match m st with
            | (Ok a, st') => k a st'
            | (Raise e, st') => (Raise e, st')
            end.
Definition gets {A} (f : state -> A) : M A := fun st => (Ok (f st), st).
Definition modify (f : state -> state) : M unit := fun st => (Ok tt, f st).

Declare Scope py_scope.
Delimit Scope py_scope with py.
Notation "'let*' x := m 'in' k" := (bind m (fun x => k))
  (at level 10, x name, m at level 100, k at level 200) : py_scope.
Notation "m >>> k" := (bind m (fun _ => k))
  (at level 100, k at level 200, right associativity) : py_scope.
Local Open Scope py_scope.

(** [print(a, b, ...)]: one line on the console. *)
Definition print (args : list string) : M unit :=
  modify (fun st => set_stdout (stdout st ++ [Py.print_line args]) st).

(** [d + delta]: OverflowError when the result leaves year 1..9999. *)
Definition datetime_add (d : datetime) (delta : Z) : M datetime :=
  if ((0 <=? d + delta) && (d + delta <=? datetime_max))%Z
  then ret (d + delta)%Z else raise OverflowError.

(** [row[key]] *)
Definition getitem (row : dict_row) (key : string) : M (option string) :=
  match row !! key with
  | Some v => ret v
  | None => raise (KeyError key)
  end.

(** [row.get(key, default)] *)
Definition get_default (row : dict_row) (key : string) (default : option string)
    : option string :=
  match row !! key with
  | Some v => v
  | None => default
  end.

(** [v.strip()] where [v] may be [None]. *)
Definition strip_value (v : option string) : M string :=
  match v with
  | Some s => ret (Py.strip s)
  | None => raise AttributeError
  end.

(** ** What the program takes from its runtime *)

Class Runtime : Type := {
  (** [datetime.fromisoformat(s)]; [None] stands for its ValueError *)
  fromisoformat : string -> option datetime;
  (** [d.isoformat()] *)
  isoformat : datetime -> string;
  (** [d.strftime(fmt)] *)
  strftime : datetime -> string -> string;
  (** [str(uuid.uuid4())] at the n-th draw *)
  uuid4 : nat -> string;
  (** [datetime.utcnow()] at the n-th draw *)
  utcnow : nat -> datetime;
  (** [str(Path(__file__).parent)] *)
  DATA_DIR : string
}.

(** ** The program *)

Section Scheduler.
Context `{RT : Runtime}.

(** [a / b] on paths, as text. *)
Definition path_join (a b : string) : string := a +:+ "/" +:+ b.

Definition OUT_DIR : string := path_join DATA_DIR "out".
Definition DURATION_MINUTES : Z := 30.
Definition TIMEZONE : string := "Africa/Lagos".

(** [datetime.fromisoformat(v)] on a cell of the bookings file. *)
Definition parse_cell (v : option string) : M datetime :=
  match v with
  | None => raise TypeError
  | Some s =>
      match fromisoformat s with
      | Some d => ret d
      | None => raise ValueError
      end
  end.

(** The loop of [read_existing_bookings] over the rows of the reader. *)
Fixpoint read_rows (rows : list dict_row) (acc : list interval)
    : M (list interval) :=
  match rows with
  | [] => ret acc
  | r :: rest =>
      let* vs := getitem r "start" in
      let* start_dt := parse_cell vs in
      let* ve := getitem r "end" in
      let* end_dt := parse_cell ve in
      read_rows rest (acc ++ [(start_dt, end_dt)])
  end.

Definition read_existing_bookings : M (list interval) :=
  let* file := gets existing_csv in
  match file with
  | None => ret []
  | Some f => read_rows (DictReader (file_records f)) []
  end.

Definition append_booking_to_existing (start_dt end_dt : datetime) : M unit :=
  let* file := gets existing_csv in
  let row := [isoformat start_dt; isoformat end_dt] in
  let written :=
    match file with
    | None => closed_file [["start"; "end"]; row]  (* not exists: header first *)
    | Some f => write_row f row
    end in
  modify (fun st =>
    set_journal (journal st ++ [BookingAppended start_dt end_dt])
      (set_existing_csv (Some written) st)).

Fixpoint slot_overlaps (start_dt end_dt : datetime) (bs : list interval) : bool :=
  match bs with
  | [] => false
  | (bstart, bend) :: rest =>
      if ((start_dt <? bend) && (end_dt >? bstart))%Z then true
      else slot_overlaps start_dt end_dt rest
  end.

(** [Path(out_path).write_text(text)] *)
Definition write_text (out_path text : string) : M unit :=
  modify (fun st =>
    set_journal (journal st ++ [InviteWritten out_path])
      (set_out_dir (<[out_path := text]> (out_dir st)) st)).

Definition ics_text (uid dtstamp dtstart dtend summary organizer_email
    attendee_email : string) : string :=
  String.concat Py.nl
    [ "BEGIN:VCALENDAR";
      "PRODID:-//Project B Scheduling VA//EN";
      "VERSION:2.0";
      "CALSCALE:GREGORIAN";
      "METHOD:REQUEST";
      "BEGIN:VEVENT";
      "UID:" +:+ uid;
      "DTSTAMP:" +:+ dtstamp;
      "DTSTART;TZID=" +:+ TIMEZONE +:+ ":" +:+ dtstart;
      "DTEND;TZID=" +:+ TIMEZONE +:+ ":" +:+ dtend;
      "SUMMARY:" +:+ summary;
      "DESCRIPTION:Auto-generated appointment. If you need to reschedule, reply to the organizer email.";
      "ORGANIZER;CN=Clinic:MAILTO:" +:+ organizer_email;
      "ATTENDEE;CN=Patient;RSVP=TRUE:MAILTO:" +:+ attendee_email;
      "STATUS:CONFIRMED";
      "END:VEVENT";
      "END:VCALENDAR";
      "" ].

Definition create_ics (summary : string) (start_dt : datetime)
    (duration_minutes : Z) (organizer_email attendee_email out_path : string)
    : M unit :=
  let dtstart := strftime start_dt "%Y%m%dT%H%M%S" in
  let* end_dt := datetime_add start_dt (timedelta_minutes duration_minutes) in
  let dtend := strftime end_dt "%Y%m%dT%H%M%S" in
  let* n := gets drawn in
  modify (set_drawn (S n)) >>>
  let uid := uuid4 n +:+ "@projectb.local" in
  let dtstamp := strftime (utcnow n) "%Y%m%dT%H%M%SZ" in
  write_text out_path
    (ics_text uid dtstamp dtstart dtend summary organizer_email attendee_email).

(** The path of the invite of [name] at [start_dt]. *)
Definition invite_path (name : string) (start_dt : datetime) : string :=
  path_join OUT_DIR
    ("invite_" +:+ Py.replace " " "_" name +:+ "_"
       +:+ strftime start_dt "%Y%m%dT%H%M" +:+ ".ics").

(** The body of [if not slot_overlaps(...)], up to its [break]. *)
Definition book (name email : string) (start_dt end_dt : datetime) : M unit :=
  let summary := "Initial Telehealth Consultation — " +:+ name in
  let filename := invite_path name start_dt in
  create_ics summary start_dt DURATION_MINUTES "reception@clinic.example"
    email filename >>>
  append_booking_to_existing start_dt end_dt >>>
  modify (fun st => set_bookings (bookings st ++ [(start_dt, end_dt)]) st) >>>
  modify (fun st =>
    set_scheduled
      (scheduled st ++
         [(name, email, strftime start_dt "%Y-%m-%d %H:%M", filename)]) st) >>>
  print ["Scheduled"; name; "at"; isoformat start_dt; "->"; filename].

(** [for p in prefs: ...]; the result is the flag [booked]. *)
Fixpoint try_prefs (name email : string) (prefs : list string) : M bool :=
  match prefs with
  | [] => ret false
  | p :: rest =>
      match fromisoformat p with
      | None =>
          print ["Invalid datetime format for"; p;
                 "expected YYYY-MM-DD HH:MM, skipping."] >>>
          try_prefs name email rest
      | Some start_dt =>
          let* end_dt :=
            datetime_add start_dt (timedelta_minutes DURATION_MINUTES) in
          let* bs := gets bookings in
          if negb (slot_overlaps start_dt end_dt bs) then
            book name email start_dt end_dt >>> ret true
          else try_prefs name email rest
      end
  end.

(** [[p.strip() for p in raw_prefs.split(';') if p.strip()]] *)
Definition split_prefs (raw_prefs : string) : list string :=
  map Py.strip
    (filter (fun p => Py.truthy (Py.strip p) = true) (Py.split ";" raw_prefs)).

(** The body of [for row in reader]. *)
Definition process_row (row : dict_row) : M unit :=
  let* vn := getitem row "name" in
  let* name := strip_value vn in
  let* vm := getitem row "email" in
  let* email := strip_value vm in
  let* raw_prefs := strip_value (get_default row "preferred_slots" (Some "")) in
  if negb (Py.truthy raw_prefs) then
    print ["No preferred slots for"; name]
  else
    let prefs := split_prefs raw_prefs in
    let* booked := try_prefs name email prefs in
    if negb booked then
      print ["Could not find a free preferred slot for"; name]
    else ret tt.

Fixpoint for_rows (rows : list dict_row) : M unit :=
  match rows with
  | [] => ret tt
  | row :: rest => process_row row >>> for_rows rest
  end.

Fixpoint print_scheduled (l : list scheduled_entry) : M unit :=
  match l with
  | [] => ret tt
  | (name, _, start_text, file) :: rest =>
      print ["-"; name; start_text; "("; file; ")"] >>> print_scheduled rest
  end.

Definition main : M unit :=
  let* intake := gets intake_csv in
  match intake with
  | None =>
      print ["Create intake_responses.csv next to this script. See sample file provided."] >>>
      raise (SystemExit 1)
  | Some f =>
      let* bs := read_existing_bookings in
      modify (set_bookings bs) >>>
      modify (set_scheduled []) >>>
      for_rows (DictReader f) >>>
      print [Py.nl +:+ "Summary:"] >>>
      let* sched := gets scheduled in
      print ["Successfully scheduled " +:+ pretty (length sched)
               +:+ " appointment(s)."] >>>
      print_scheduled sched
  end.

End Scheduler.

(** ** A computable runtime: the proleptic Gregorian calendar

    [Civil.runtime] reads and writes the ISO forms the program meets:
    'YYYY-MM-DD', 'YYYY-MM-DD HH:MM' and 'YYYY-MM-DDTHH:MM:SS' (any one
    character between date and time), and rejects every other text.  It is
    used to run the model on concrete files. *)

Module Civil.
Local Open Scope Z_scope.

Definition is_leap (y : Z) : bool :=
  (y mod 4 =? 0) && (negb (y mod 100 =? 0) || (y mod 400 =? 0)).

Definition days_in_month (y m : Z) : Z :=
  if m =? 2 then (if is_leap y then 29 else 28)
  else if (m =? 4) || (m =? 6) || (m =? 9) || (m =? 11) then 30 else 31.

(** Days before January 1st of year [y]. *)
Definition days_before_year (y : Z) : Z :=
  let p := y - 1 in p * 365 + p / 4 - p / 100 + p / 400.

Fixpoint days_before_month_go (y : Z) (k : nat) (m : Z) : Z :=
  match k with
  | O => 0
  | S k' => if Z.of_nat k <? m
            then days_in_month y (Z.of_nat k) + days_before_month_go y k' m
            else days_before_month_go y k' m
  end.

(** Days of year [y] before the first of month [m]. *)
Definition days_before_month (y m : Z) : Z := days_before_month_go y 12 m.

(** Microseconds since 0001-01-01T00:00:00. *)
Definition of_civil (y m d hh mm ss us : Z) : datetime :=
  (((days_before_year y + days_before_month y m + (d - 1)) * 24 + hh) * 60 + mm)
    * 60000000 + ss * 1000000 + us.

(** The month and day (from 1) of day [n] (from 0) of year [y]. *)
Fixpoint month_day_go (y : Z) (k : nat) (m n : Z) : Z * Z :=
  match k with
  | O => (m, n + 1)
  | S k' => if n <? days_in_month y m then (m, n + 1)
            else month_day_go y k' (m + 1) (n - days_in_month y m)
  end.

(** Year, month and day of the day number [n] (0 is 0001-01-01). *)
Definition civil_date (n : Z) : Z * Z * Z :=
  let n400 := n / 146097 in
  let r := n mod 146097 in
  let n100 := r / 36524 in
  let r := r mod 36524 in
  let n4 := r / 1461 in
  let r := r mod 1461 in
  let n1 := r / 365 in
  let r := r mod 365 in
  let y := n400 * 400 + 1 + n100 * 100 + n4 * 4 + n1 in
  if (n1 =? 4) || (n100 =? 4) then (y - 1, 12, 31)
  else let '(m, d) := month_day_go y 11 1 r in (y, m, d).

Definition digit (c : ascii) : option Z :=
  let n := Z.of_nat (nat_of_ascii c) in
  if (48 <=? n) && (n <=? 57) then Some (n - 48) else None.

Fixpoint number_go (s : string) (acc : Z) : option Z :=
  match s with
  | EmptyString => Some acc
  | String c s' =>
      match digit c with
      | Some d => number_go s' (acc * 10 + d)
      | None => None
      end
  end.

(** The value of a non-empty run of decimal digits. *)
Definition number (s : string) : option Z :=
  match s with
  | EmptyString => None
  | _ => number_go s 0
  end.

Fixpoint zeros (k : nat) : string :=
  match k with
  | O => EmptyString
  | S k' => String "0" (zeros k')
  end.

(** [n] in decimal, zero-padded to [width]. *)
Definition pad (width : nat) (n : Z) : string :=
  let s := pretty (Z.to_N n) in
  zeros (width - String.length s) +:+ s.

Definition sub (i len : nat) (s : string) : string := String.substring i len s.

Definition parse_date (s : string) : option (Z * Z * Z) :=
  match number (sub 0 4 s), number (sub 5 2 s), number (sub 8 2 s) with
  | Some y, Some m, Some d =>
      if String.eqb (sub 4 1 s) "-" && String.eqb (sub 7 1 s) "-"
         && (1 <=? y) && (1 <=? m) && (m <=? 12)
         && (1 <=? d) && (d <=? days_in_month y m)
      then Some (y, m, d) else None
  | _, _, _ => None
  end.

(** 'HH:MM' or 'HH:MM:SS' *)
Definition parse_time (s : string) : option (Z * Z * Z) :=
  match number (sub 0 2 s), number (sub 3 2 s) with
  | Some hh, Some mm =>
      if String.eqb (sub 2 1 s) ":" && (hh <? 24) && (mm <? 60) then
        if (String.length s =? 5)%nat then Some (hh, mm, 0)
        else
          match number (sub 6 2 s) with
          | Some ss =>
              if (String.length s =? 8)%nat && String.eqb (sub 5 1 s) ":"
                 && (ss <? 60)
              then Some (hh, mm, ss) else None
          | None => None
          end
      else None
  | _, _ => None
  end.

Definition parse (s : string) : option datetime :=
  match parse_date (sub 0 10 s) with
  | None => None
  | Some (y, m, d) =>
      if (String.length s =? 10)%nat then Some (of_civil y m d 0 0 0 0)
      else if (String.length s <? 12)%nat then None
      else
        match parse_time (sub 11 (String.length s - 11) s) with
        | Some (hh, mm, ss) => Some (of_civil y m d hh mm ss 0)
        | None => None
        end
  end.

(** One directive of [strftime]. *)
Definition directive (c : ascii) (t : datetime) : string :=
  let '(y, m, d) := civil_date (t / 86400000000) in
  let r := t mod 86400000000 in
  if Ascii.eqb c "Y" then pad 4 y
  else if Ascii.eqb c "m" then pad 2 m
  else if Ascii.eqb c "d" then pad 2 d
  else if Ascii.eqb c "H" then pad 2 (r / 3600000000)
  else if Ascii.eqb c "M" then pad 2 (r / 60000000 mod 60)
  else if Ascii.eqb c "S" then pad 2 (r / 1000000 mod 60)
  else if Ascii.eqb c "f" then pad 6 (r mod 1000000)
  else String c EmptyString.

Fixpoint format (t : datetime) (fmt : string) : string :=
  match fmt with
  | String "%" (String c rest) => directive c t +:+ format t rest
  | String c rest => String c (format t rest)
  | EmptyString => EmptyString
  end.

Definition print_iso (t : datetime) : string :=
  if t mod 1000000 =? 0 then format t "%Y-%m-%dT%H:%M:%S"
  else format t "%Y-%m-%dT%H:%M:%S.%f".

Definition runtime : Runtime := {|
  fromisoformat := parse;
  isoformat := print_iso;
  strftime := format;
  uuid4 := fun n => "00000000-0000-4000-8000-" +:+ pad 12 (Z.of_nat n);
  utcnow := fun _ => of_civil 2025 8 1 12 0 0 0;
  DATA_DIR := "/srv/project_b"
|}.

End Civil.

(** A state with the two input files and nothing else. *)
Definition initial (intake : option csv_file) (existing : option bookings_file)
    : state :=
  mkState intake existing ∅ [] 0 [] [] [].

Definition intake_header : list string := ["name"; "email"; "preferred_slots"].

(** ** Notions used by the statements *)

Section Notions.
Context `{RT : Runtime}.
Local Open Scope Z_scope.

(** [start_dt + timedelta(minutes=DURATION_MINUTES)] as a number. *)
Definition slot_end (s : datetime) : datetime :=
  s + timedelta_minutes DURATION_MINUTES.

(** The end of the slot starting at [s] is a datetime: no OverflowError. *)
Definition in_rangeb (s : datetime) : bool :=
  (0 <=? slot_end s) && (slot_end s <=? datetime_max).

(** Two intervals overlap (half-open semantics). *)
Definition overlap (a b : interval) : Prop := a.1 < b.2 /\ a.2 > b.1.

(** No two members of the list overlap. *)
Definition no_overlap (l : list interval) : Prop :=
  forall (i j : nat) (a b : interval),
    i <> j -> l !! i = Some a -> l !! j = Some b -> ~ overlap a b.

(** A candidate text that the loop passes over: malformed, or its slot
    conflicts with [bs]. *)
Definition rejected (bs : list interval) (q : string) : Prop :=
  match fromisoformat q with
  | None => True
  | Some d => slot_overlaps d (slot_end d) bs = true
  end.

(** Every well-formed candidate has its end within the datetime range. *)
Definition no_overflow (prefs : list string) : Prop :=
  Forall (fun q => match fromisoformat q with
                   | None => True
                   | Some d => in_rangeb d = true
                   end) prefs.

Definition is_malformed (q : string) : bool :=
  match fromisoformat q with None => true | Some _ => false end.

(** The malformed candidates of a list, in order. *)
Definition malformed (prefs : list string) : list string :=
  filter (fun q => is_malformed q = true) prefs.

Definition invalid_line (p : string) : string :=
  Py.print_line ["Invalid datetime format for"; p;
                 "expected YYYY-MM-DD HH:MM, skipping."].

(** The state after the warnings for the candidates [ps]. *)
Definition warn (ps : list string) (st : state) : state :=
  set_stdout (stdout st ++ map invalid_line ps) st.

(** The state after one more console line. *)
Definition say (line : string) (st : state) : state :=
  set_stdout (stdout st ++ [line]) st.

Definition no_slot_line (name : string) : string :=
  Py.print_line ["Could not find a free preferred slot for"; name].

Definition no_prefs_line (name : string) : string :=
  Py.print_line ["No preferred slots for"; name].

(** The record that [append_booking_to_existing] writes. *)
Definition booking_record (iv : interval) : list string :=
  [isoformat iv.1; isoformat iv.2].

(** The bookings file after one append. *)
Definition appended (file : option bookings_file) (iv : interval)
    : option bookings_file :=
  match file with
  | None => Some (closed_file [["start"; "end"]; booking_record iv])
  | Some f => Some (write_row f (booking_record iv))
  end.

(** The state that the body of [if not slot_overlaps(...)] leaves when it
    books the slot starting at [s] for [name]. *)
Definition booked_state (name email : string) (s : datetime) (st : state)
    : state :=
  let path := invite_path name s in
  mkState (intake_csv st)
    (appended (existing_csv st) (s, slot_end s))
    (<[path := ics_text (uuid4 (drawn st) +:+ "@projectb.local")
                 (strftime (utcnow (drawn st)) "%Y%m%dT%H%M%SZ")
                 (strftime s "%Y%m%dT%H%M%S")
                 (strftime (slot_end s) "%Y%m%dT%H%M%S")
                 ("Initial Telehealth Consultation — " +:+ name)
                 "reception@clinic.example" email]> (out_dir st))
    (stdout st ++ [Py.print_line ["Scheduled"; name; "at"; isoformat s; "->"; path]])
    (S (drawn st))
    (journal st ++ [InviteWritten path; BookingAppended s (slot_end s)])
    (bookings st ++ [(s, slot_end s)])
    (scheduled st ++ [(name, email, strftime s "%Y-%m-%d %H:%M", path)]).

(** What the loop over the candidates decides. *)
Inductive pick : Type :=
  | Pick (s : datetime)
  | NoPick
  | PickOverflow.

(** The loop of [main] over [prefs] as a function of the committed set:
    the malformed candidates passed on the way, and the decision.
    [try_prefs_first_fit] proves the loop equal to it. *)
Fixpoint first_fit (prefs : list string) (bs : list interval)
    : list string * pick :=
  match prefs with
  | [] => ([], NoPick)
  | p :: rest =>
      match fromisoformat p with
      | None => let '(sk, d) := first_fit rest bs in (p :: sk, d)
      | Some s =>
          if in_rangeb s then
            if slot_overlaps s (slot_end s) bs then first_fit rest bs
            else ([], Pick s)
          else ([], PickOverflow)
      end
  end.

(** What the head of the loop body reads from a row. *)
Inductive request : Type :=
  | Request (name email : string) (prefs : list string)
  | NoPrefs (name : string)
  | BadRow (e : exn).

(** The lookups and [strip] calls at the head of the loop body, as a
    function of the row.  [process_row_first_fit] proves the body equal to
    it followed by [first_fit]. *)
Definition parse_row (row : dict_row) : request :=
  match row !! "name" with
  | None => BadRow (KeyError "name")
  | Some None => BadRow AttributeError
  | Some (Some n) =>
      match row !! "email" with
      | None => BadRow (KeyError "email")
      | Some None => BadRow AttributeError
      | Some (Some e) =>
          match get_default row "preferred_slots" (Some "") with
          | None => BadRow AttributeError
          | Some raw =>
              if Py.truthy (Py.strip raw)
              then Request (Py.strip n) (Py.strip e) (split_prefs (Py.strip raw))
              else NoPrefs (Py.strip n)
          end
      end
  end.

(** One booking of a run: name, email and start. *)
Definition made : Type := (string * string * datetime)%type.

Definition made_slot (b : made) : interval := (b.2, slot_end b.2).

Definition made_events (b : made) : list io_event :=
  [InviteWritten (invite_path b.1.1 b.2); BookingAppended b.2 (slot_end b.2)].

Definition made_entry (b : made) : scheduled_entry :=
  (b.1.1, b.1.2, strftime b.2 "%Y-%m-%d %H:%M", invite_path b.1.1 b.2).

(** Each start of the list passed the overlap check against the committed
    set as it stood when the slot was taken. *)
Fixpoint checked (bs : list interval) (starts : list datetime) : Prop :=
  match starts with
  | [] => True
  | s :: rest =>
      in_rangeb s = true
      /\ slot_overlaps s (slot_end s) bs = false
      /\ checked (bs ++ [(s, slot_end s)]) rest
  end.

(** [st'] differs from [st], console apart, by the bookings [new] made in
    order: the committed set, the journal, the bookings file and
    [scheduled] each grew by them, and each passed the overlap check. *)
Definition extends_by (st st' : state) (new : list made) : Prop :=
  bookings st' = bookings st ++ map made_slot new
  /\ journal st' = journal st ++ flat_map made_events new
  /\ existing_csv st' = fold_left appended (map made_slot new) (existing_csv st)
  /\ scheduled st' = scheduled st ++ map made_entry new
  /\ intake_csv st' = intake_csv st
  /\ checked (bookings st) (map snd new).

(** The two states agree on everything but the console. *)
Definition same_files (st st' : state) : Prop :=
  intake_csv st' = intake_csv st
  /\ existing_csv st' = existing_csv st
  /\ out_dir st' = out_dir st
  /\ drawn st' = drawn st
  /\ journal st' = journal st
  /\ bookings st' = bookings st
  /\ scheduled st' = scheduled st.

(** The state in which [main] enters its loop, given the loaded list. *)
Definition loop_entry (bs : list interval) (st : state) : state :=
  set_scheduled [] (set_bookings bs st).

(** The candidate texts of a row: what [main] iterates over. *)
Definition row_prefs (row : dict_row) : list string :=
  match get_default row "preferred_slots" (Some "") with
  | Some raw => split_prefs (Py.strip raw)
  | None => []
  end.

(** The start times that the candidates of the rows denote. *)
Definition row_slots (rows : list dict_row) : list datetime :=
  omap fromisoformat (flat_map row_prefs rows).

(** [d.isoformat()] is read back by [fromisoformat] as [d]. *)
Definition reads_back (d : datetime) : Prop :=
  fromisoformat (isoformat d) = Some d.

Definition interval_reads_back (iv : interval) : Prop :=
  reads_back iv.1 /\ reads_back iv.2.

(** The bookings file is absent, or begins with the header that the
    program writes and ends, as the files the program writes do, with the
    line break of its last line. *)
Definition store_headed (file : option bookings_file) : Prop :=
  file = None
  \/ exists records, file = Some (closed_file (["start"; "end"] :: records)).

(** The state after recording the intervals, in order. *)
Definition record_all (ivs : list interval) (st : state) : state :=
  fold_left (fun acc iv => (append_booking_to_existing iv.1 iv.2 acc).2) ivs st.

(** Every invite is written after some append: the order that the claim
    on invites states. *)
Definition invite_follows_append (j : list io_event) : Prop :=
  forall (i : nat) (path : string), j !! i = Some (InviteWritten path) ->
    exists (k : nat) (s e : datetime),
      (k < i)%nat /\ j !! k = Some (BookingAppended s e).

(** The number of bookings that the bookings file holds. *)
Definition committed_count (st : state) : nat :=
  match existing_csv st with
  | None => 0%nat
  | Some f => length (DictReader (file_records f))
  end.

End Notions.

(** ** Notions used by the further properties *)

(** A time of day on 2025-09-01, for the examples. *)
Definition sept1 (hh mm : Z) : datetime := Civil.of_civil 2025 9 1 hh mm 0 0.

(** The line of the summary for one entry of [scheduled]. *)
Definition summary_entry_line (s : scheduled_entry) : string :=
  Py.print_line ["-"; s.1.1.1; s.1.2; "("; s.2; ")"].

(** Every invite listed in [scheduled] is a file of the output directory. *)
Definition invites_exist (st : state) : Prop :=
  forall entry : scheduled_entry,
    entry ∈ scheduled st -> is_Some (out_dir st !! entry.2).

(** The two states hold the same ledger: the same bookings file, journal of
    durable writes and committed set, and invites at the same paths (what the
    invites hold, identifier and time stamp, differs from run to run). *)
Definition same_ledger (st st' : state) : Prop :=
  existing_csv st' = existing_csv st
  /\ journal st' = journal st
  /\ bookings st' = bookings st
  /\ dom (out_dir st') = dom (out_dir st).

(** The state with another intake file in place. *)
Definition set_intake_csv (v : option csv_file) (st : state) : state :=
  mkState v (existing_csv st) (out_dir st) (stdout st) (drawn st) (journal st)
          (bookings st) (scheduled st).

(** ** [app.py]: the request loop of the upload page

    The loop of [app.py] over the uploaded requests, with its conflict check
    against the fixed table [existing_bookings].  A row of the data frame
    maps the names of the columns to cells; the calendar is the list of its
    events in the order they were added (the library keeps them as a set); the
    notices are the calls of [st.warning] and [st.success].  What Streamlit
    draws, how pandas reads the upload, and the serialization of the calendar
    are outside the model. *)

(** [datetime.strptime(text, fmt)]; [None] stands for its ValueError. *)
Class AppRuntime : Type := {
  strptime : string -> string -> option datetime
}.

Module App.

(** A cell of a data frame: text, or a value that is not text (a number, or
    the NaN that pandas puts where the file has an empty field), held with the
    text that [str] gives for it. *)
Inductive cell : Type :=
  | Text (s : string)
  | Value (shown : string).

(** The cell inside an f-string. *)
Definition show (c : cell) : string :=
  match c with
  | Text s => s
  | Value shown => shown
  end.

Record event : Type := mkEvent {
  ev_name : string;
  ev_begin : datetime;
  ev_end : datetime;
  ev_description : cell
}.

Inductive notice : Type :=
  | Warning (text : string)
  | Success (text : string).

(** The calendar being built and the notices shown so far. *)
Record page : Type := mkPage {
  cal_events : list event;
  notices : list notice
}.

Definition blank_page : page := mkPage [] [].

Definition TIME_FORMAT : string := "%Y-%m-%d %H:%M".

(** The two rows of the data frame [existing_bookings]. *)
Definition existing_bookings : list (gmap string cell) :=
  [ <["title" := Text "Team Meeting"]>
      (<["end" := Text "2025-09-01 11:00"]>
         (<["start" := Text "2025-09-01 10:00"]> ∅));
    <["title" := Text "Doctor Appt"]>
      (<["end" := Text "2025-09-01 14:00"]>
         (<["start" := Text "2025-09-01 13:00"]> ∅)) ].

(** [timedelta(hours=1)] in microseconds. *)
Definition ONE_HOUR : Z := 3600000000.

Section Page.
Context `{ART : AppRuntime}.

(** [datetime.strptime(row[key], fmt)]: KeyError without the column,
    TypeError on a cell that is not text, ValueError on a text that does not
    match the format. *)
Definition parse_at (row : gmap string cell) (key : string) : result datetime :=
  match row !! key with
  | None => Raise (KeyError key)
  | Some (Value _) => Raise TypeError
  | Some (Text text) =>
      match strptime text TIME_FORMAT with
      | Some d => Ok d
      | None => Raise ValueError
      end
  end.

(** The inner loop: the flag [conflict] after [for _, booked in ...]. *)
Fixpoint conflicts (start_time end_time : datetime)
    (booked_rows : list (gmap string cell)) : result bool :=
  match booked_rows with
  | [] => Ok false
  | booked :: rest =>
      match parse_at booked "start" with
      | Raise e => Raise e
      | Ok booked_start =>
          match parse_at booked "end" with
          | Raise e => Raise e
          | Ok booked_end =>
              if ((start_time <? booked_end) && (end_time >? booked_start))%Z
              then Ok true
              else conflicts start_time end_time rest
          end
      end
  end.

(** The body of [for _, row in df.iterrows()]. *)
Definition handle_row (row : gmap string cell) (pg : page) : result unit * page :=
  match parse_at row "preferred_time" with
  | Raise e => (Raise e, pg)
  | Ok start_time =>
      let end_time := (start_time + ONE_HOUR)%Z in
      if ((0 <=? end_time) && (end_time <=? datetime_max))%Z then
        match conflicts start_time end_time existing_bookings with
        | Raise e => (Raise e, pg)
        | Ok conflict =>
            match row !! "name", row !! "preferred_time" with
            | Some name, Some text =>
                if conflict then
                  (Ok tt,
                   mkPage (cal_events pg)
                     (notices pg
                        ++ [Warning ("⚠️ Conflict for " +:+ show name +:+ " at "
                                     +:+ show text)]))
                else
                  (Ok tt,
                   mkPage
                     (cal_events pg
                        ++ [mkEvent ("Consultation with " +:+ show name) start_time
                              end_time (default (Text "") (row !! "email"))])
                     (notices pg
                        ++ [Success ("✅ Scheduled: " +:+ show name +:+ " at "
                                     +:+ show text)]))
            | None, _ => (Raise (KeyError "name"), pg)
            | Some _, None => (Raise (KeyError "preferred_time"), pg)
            end
        end
      else (Raise OverflowError, pg)
  end.

Fixpoint handle_rows (rows : list (gmap string cell)) (pg : page)
    : result unit * page :=
  match rows with
  | [] => (Ok tt, pg)
  | row :: rest =>
      match handle_row row pg with
      | (Ok _, pg') => handle_rows rest pg'
      | (Raise e, pg') => (Raise e, pg')
      end
  end.

(** [strptime] reads the four times of the table. *)
Definition clock_reads_table : Prop :=
  strptime "2025-09-01 10:00" TIME_FORMAT = Some (sept1 10 0)
  /\ strptime "2025-09-01 11:00" TIME_FORMAT = Some (sept1 11 0)
  /\ strptime "2025-09-01 13:00" TIME_FORMAT = Some (sept1 13 0)
  /\ strptime "2025-09-01 14:00" TIME_FORMAT = Some (sept1 14 0).

Definition is_success (n : notice) : bool :=
  match n with Success _ => true | Warning _ => false end.

(** The page [pg] followed by what [out] holds. *)
Definition page_app (pg out : page) : page :=
  mkPage (cal_events pg ++ cal_events out) (notices pg ++ notices out).

End Page.

(** A computable [strptime] for the examples: it reads the zero-padded texts
    'YYYY-MM-DD HH:MM' under the format of the page, and rejects the rest. *)
Definition civil_clock : AppRuntime := {|
  strptime := fun text fmt =>
    if String.eqb fmt TIME_FORMAT && (String.length text =? 16)%nat
       && String.eqb (Civil.sub 10 1 text) " "
    then Civil.parse text else None
|}.

End App.

(** * Theorems *)

(** Closed [Forall] goals over explicit lists, one element at a time. *)
Ltac forall_by_computation :=
  repeat (apply List.Forall_cons; [vm_compute; try done|]);
  apply List.Forall_nil.

(** ** The model on concrete inputs *)

Example strip_and_split :
  Py.strip "  Ada Lovelace  " = "Ada Lovelace"
  /\ Py.split ";" "a;;b " = ["a"; ""; "b "]
  /\ Py.split ";" "" = [""]
  /\ Py.replace " " "_" "Ada Lovelace" = "Ada_Lovelace".
Proof. vm_compute. repeat split. Qed.

Example split_prefs_examples :
  split_prefs "2025-09-01 09:00; 2025-09-01 10:00 ;" = ["2025-09-01 09:00"; "2025-09-01 10:00"]
  /\ split_prefs "" = []
  /\ split_prefs " ; ;" = [].
Proof. vm_compute. repeat split. Qed.

Example dict_reader_short_record :
  let rows := DictReader [intake_header; []; ["Ada"]] in
  length rows = 1%nat
  /\ (forall row, rows !! 0%nat = Some row ->
         row !! "name" = Some (Some "Ada") /\ row !! "email" = Some None
         /\ row !! "phone" = None).
Proof.
  split; [reflexivity|]. intros row [= <-]. vm_compute. repeat split.
Qed.

Example civil_examples :
  Civil.parse "2025-09-01 09:00" = Some (Civil.of_civil 2025 9 1 9 0 0 0)
  /\ Civil.print_iso (Civil.of_civil 2025 9 1 9 0 0 0) = "2025-09-01T09:00:00"
  /\ Civil.parse "2025-09-01T09:00:00" = Some (Civil.of_civil 2025 9 1 9 0 0 0)
  /\ Civil.format (Civil.of_civil 2024 2 29 23 59 0 0) "%Y%m%dT%H%M" = "20240229T2359"
  /\ Civil.format datetime_max "%Y-%m-%d %H:%M:%S.%f" = "9999-12-31 23:59:59.999999"
  /\ Civil.parse "2025-02-29 09:00" = None
  /\ Civil.parse "tomorrow 9am" = None.
Proof. vm_compute. repeat split. Qed.

(** A slot that would end after [datetime.max] raises, and the run stops. *)
Example strip_unicode_whitespace :
  Py.strip (Py.bytes [194; 160; 65; 100; 97; 227; 128; 128; 10]) = "Ada"
  /\ Py.strip (Py.bytes [226; 128; 175; 9]) = ""
  /\ Py.strip (Py.bytes [195; 160; 32]) = Py.bytes [195; 160].
Proof. vm_compute. repeat split. Qed.

(** An empty field of the upload is NaN in the data frame, and [strptime]
    raises TypeError on it: the page stops at that request. *)
Example app_empty_time_cell :
  (App.handle_rows (ART := App.civil_clock)
     [ <["preferred_time" := App.Value "nan"]>
         (<["email" := App.Text "ada@clinic.example"]>
            (<["name" := App.Text "Ada"]> ∅));
       <["preferred_time" := App.Text "2025-09-01 09:00"]>
         (<["email" := App.Text "bo@clinic.example"]>
            (<["name" := App.Text "Bo"]> ∅)) ]
     App.blank_page)
  = (Raise TypeError, App.blank_page).
Proof. vm_compute. reflexivity. Qed.

Example overflow_stops_the_run :
  (main (RT := Civil.runtime)
     (initial (Some [intake_header;
                     ["Ada"; "ada@clinic.example"; "9999-12-31 23:45"];
                     ["Bo"; "bo@clinic.example"; "2025-09-01 09:00"]]) None)).1
  = Raise OverflowError.
Proof. vm_compute. reflexivity. Qed.

(** An intake file without a name column: [row['name']] raises KeyError at
    the first record. *)
Example missing_name_column_stops_the_run :
  (main (RT := Civil.runtime)
     (initial (Some [["email"; "preferred_slots"];
                     ["ada@clinic.example"; "2025-09-01 09:00"]]) None)).1
  = Raise (KeyError "name").
Proof. vm_compute. reflexivity. Qed.

(** A bookings file that exists but is empty: [append_booking_to_existing]
    writes the header only when the file does not exist, so the first record
    appended takes the place of the header and the next load returns no
    interval. *)
Example empty_bookings_file_gets_no_header :
  let st := initial (Some [intake_header;
                           ["Ada"; "ada@clinic.example"; "2025-09-01 09:00"]])
              (Some (closed_file [])) in
  existing_csv (main (RT := Civil.runtime) st).2
  = Some (closed_file [["2025-09-01T09:00:00"; "2025-09-01T09:30:00"]])
  /\ (read_existing_bookings (RT := Civil.runtime)
        (main (RT := Civil.runtime) st).2).1 = Ok [].
Proof. vm_compute. split; reflexivity. Qed.

(** ** Overlap *)

Section OverlapFacts.
Local Open Scope Z_scope.

Lemma slot_overlaps_true (s e : datetime) (bs : list interval) :
  slot_overlaps s e bs = true <-> exists b, b ∈ bs /\ s < b.2 /\ e > b.1.
Proof.
  induction bs as [|[bstart bend] rest IH]; simpl.
  - split; [discriminate|]. intros (b & Hb & _). inversion Hb.
  - destruct ((s <? bend) && (e >? bstart)) eqn:Hc.
    + split; [intros _|reflexivity].
      apply andb_true_iff in Hc as [H1 H2].
      exists (bstart, bend). split; [left|]. simpl. lia.
    + rewrite IH. split.
      * intros (b & Hb & Hlt). exists b. split; [by right|done].
      * intros (b & Hb & H1 & H2). inversion Hb; subst.
        -- simpl in *. apply andb_false_iff in Hc as [Hc|Hc]; lia.
        -- exists b. done.
Qed.

Lemma slot_overlaps_false (s e : datetime) (bs : list interval) :
  slot_overlaps s e bs = false <-> forall b, b ∈ bs -> ~ (s < b.2 /\ e > b.1).
Proof.
  rewrite <- not_true_iff_false, slot_overlaps_true. split.
  - intros H b Hb Hc. apply H. by exists b.
  - intros H (b & Hb & Hc). by apply (H b).
Qed.

(** A larger committed set rejects whatever a smaller one rejects. *)
Lemma slot_overlaps_mono (s e : datetime) (bs bs' : list interval) :
  (forall b, b ∈ bs -> b ∈ bs') ->
  slot_overlaps s e bs = true -> slot_overlaps s e bs' = true.
Proof.
  rewrite !slot_overlaps_true. intros Hsub (b & Hb & Hc).
  exists b. split; [by apply Hsub|done].
Qed.

(** A slot of positive length conflicts with itself once committed. *)
Lemma slot_overlaps_self (s e : datetime) (bs : list interval) :
  s < e -> (s, e) ∈ bs -> slot_overlaps s e bs = true.
Proof.
  intros Hlt Hin. apply slot_overlaps_true. exists (s, e). simpl.
  split; [done|lia].
Qed.

Lemma no_overlap_nil : no_overlap [].
Proof. intros i j a b _ Hi. by rewrite lookup_nil in Hi. Qed.

(** Appending a slot that passed the check keeps the ledger free of
    overlaps. *)
Lemma no_overlap_snoc (l : list interval) (s e : datetime) :
  no_overlap l -> slot_overlaps s e l = false -> no_overlap (l ++ [(s, e)]).
Proof.
  intros Hl Hfree i j a b Hij Hi Hj.
  rewrite slot_overlaps_false in Hfree.
  apply lookup_app_Some in Hi as [Hi|[Hli Hi]];
    apply lookup_app_Some in Hj as [Hj|[Hlj Hj]].
  - by apply (Hl i j).
  - apply list_lookup_singleton_Some in Hj as [_ <-].
    intros [H1 H2]. apply (Hfree a); [by eapply list_elem_of_lookup_2|].
    destruct a; simpl in *. lia.
  - apply list_lookup_singleton_Some in Hi as [_ <-].
    intros [H1 H2]. apply (Hfree b); [by eapply list_elem_of_lookup_2|].
    destruct b; simpl in *. lia.
  - apply list_lookup_singleton_Some in Hi as [Hi _].
    apply list_lookup_singleton_Some in Hj as [Hj _]. lia.
Qed.

End OverlapFacts.

(** C4. Overlap semantics: [slot_overlaps] answers true exactly when some
    committed interval [b] has [start < b.end] and [end > b.start]; an interval
    that only touches a committed one at an endpoint, on either side, does not
    overlap it, as for 10:00-11:00 against 11:00-12:00. *)
Theorem slot_overlaps_semantics :
  (forall (s e : datetime) (bs : list interval),
      slot_overlaps s e bs = true
      <-> exists b : interval, b ∈ bs /\ (s < b.2)%Z /\ (e > b.1)%Z)
  /\ (forall a b c : datetime,
        slot_overlaps a b [(b, c)] = false /\ slot_overlaps b c [(a, b)] = false)
  /\ slot_overlaps (Civil.of_civil 2025 9 1 10 0 0 0)
       (Civil.of_civil 2025 9 1 11 0 0 0)
       [(Civil.of_civil 2025 9 1 11 0 0 0, Civil.of_civil 2025 9 1 12 0 0 0)]
     = false.
Proof.
  split; [exact slot_overlaps_true|]. split; [|reflexivity].
  intros a b c. simpl. split.
  - destruct (a <? c)%Z; simpl; [|reflexivity].
    destruct (b >? b)%Z eqn:H; [lia|reflexivity].
  - destruct (b <? b)%Z eqn:H; [lia|reflexivity].
Qed.

(** C9. Overlap symmetry: checking [A] against the committed set [[B]] gives
    the same answer as checking [B] against [[A]]. *)
Theorem slot_overlaps_symmetric (a b : interval) :
  slot_overlaps a.1 a.2 [b] = slot_overlaps b.1 b.2 [a].
Proof.
  destruct a as [a1 a2], b as [b1 b2]. simpl.
  destruct (a1 <? b2)%Z eqn:H1, (a2 >? b1)%Z eqn:H2,
           (b1 <? a2)%Z eqn:H3, (b2 >? a1)%Z eqn:H4; simpl; try reflexivity; lia.
Qed.

Section Run.
Context `{RT : Runtime}.
Local Open Scope Z_scope.

Lemma warn_nil (st : state) : warn [] st = st.
Proof. destruct st. unfold warn, set_stdout. simpl. by rewrite app_nil_r. Qed.

Lemma warn_cons (p : string) (ps : list string) (st : state) :
  warn (p :: ps) st = warn ps (say (invalid_line p) st).
Proof. unfold warn, say, set_stdout. simpl. by rewrite <- app_assoc. Qed.

Lemma slot_end_gt (s : datetime) : s < slot_end s.
Proof. unfold slot_end, timedelta_minutes, DURATION_MINUTES. lia. Qed.

(** The booking body, run on a slot whose end is in range. *)
Lemma book_eq (name email : string) (s : datetime) (st : state) :
  in_rangeb s = true ->
  book name email s (slot_end s) st = (Ok tt, booked_state name email s st).
Proof.
  intros Hr. unfold in_rangeb in Hr.
  unfold book, create_ics, datetime_add, append_booking_to_existing,
    write_text, print, bind, gets, modify, ret.
  change (s + timedelta_minutes DURATION_MINUTES) with (slot_end s).
  rewrite Hr. simpl. f_equal. unfold booked_state, appended, booking_record.
  simpl. rewrite <- app_assoc. simpl. by destruct (existing_csv st).
Qed.

(** The loop over the candidates is [first_fit] on the committed set. *)
Lemma try_prefs_first_fit (name email : string) (prefs : list string) :
  forall st : state,
    try_prefs name email prefs st =
    match first_fit prefs (bookings st) with
    | (sk, Pick s) => (Ok true, booked_state name email s (warn sk st))
    | (sk, NoPick) => (Ok false, warn sk st)
    | (sk, PickOverflow) => (Raise OverflowError, warn sk st)
    end.
Proof.
  induction prefs as [|p rest IH]; intros st; simpl.
  - by rewrite warn_nil.
  - destruct (fromisoformat p) as [s|] eqn:Hp.
    + unfold bind at 1. unfold datetime_add.
      change (s + timedelta_minutes DURATION_MINUTES) with (slot_end s).
      fold (in_rangeb s). destruct (in_rangeb s) eqn:Hr.
      * unfold ret at 1, bind at 1, gets.
        destruct (slot_overlaps s (slot_end s) (bookings st)) eqn:Ho; simpl.
        -- apply IH.
        -- unfold bind. rewrite book_eq by done. by rewrite warn_nil.
      * unfold raise. by rewrite warn_nil.
    + unfold bind, print, modify. rewrite IH. simpl.
      destruct (first_fit rest (bookings st)) as [sk d].
      rewrite warn_cons. reflexivity.
Qed.

(** The loop body is [parse_row] followed by [first_fit]. *)
Lemma process_row_first_fit (row : dict_row) (st : state) :
  process_row row st =
  match parse_row row with
  | BadRow e => (Raise e, st)
  | NoPrefs name => (Ok tt, say (no_prefs_line name) st)
  | Request name email prefs =>
      match first_fit prefs (bookings st) with
      | (sk, Pick s) => (Ok tt, booked_state name email s (warn sk st))
      | (sk, NoPick) => (Ok tt, say (no_slot_line name) (warn sk st))
      | (sk, PickOverflow) => (Raise OverflowError, warn sk st)
      end
  end.
Proof.
  unfold process_row, parse_row, getitem.
  destruct (row !! "name") as [[n|]|]; try reflexivity.
  unfold bind at 1 2. simpl.
  destruct (row !! "email") as [[e|]|]; try reflexivity.
  unfold bind at 1 2. simpl.
  destruct (get_default row "preferred_slots" (Some "")) as [raw|];
    try reflexivity.
  unfold bind at 1. simpl.
  destruct (Py.truthy (Py.strip raw)); simpl; [|reflexivity].
  unfold bind. rewrite try_prefs_first_fit.
  destruct (first_fit _ _) as [sk [s| |]]; reflexivity.
Qed.

End Run.

Section FirstFit.
Context `{RT : Runtime}.
Local Open Scope Z_scope.

Lemma malformed_cons (p : string) (l : list string) :
  malformed (p :: l) = if is_malformed p then p :: malformed l else malformed l.
Proof.
  unfold malformed. rewrite filter_cons.
  destruct (is_malformed p); by case_decide.
Qed.

Lemma first_fit_none (prefs : list string) (bs : list interval) :
  Forall (rejected bs) prefs -> no_overflow prefs ->
  first_fit prefs bs = (malformed prefs, NoPick).
Proof.
  unfold no_overflow.
  induction prefs as [|p rest IH]; intros Hrej Hov; [reflexivity|].
  inversion Hrej as [|? ? Hp Hrest]; subst.
  inversion Hov as [|? ? Hop Horest]; subst.
  rewrite malformed_cons. unfold is_malformed, rejected in *. simpl.
  destruct (fromisoformat p) as [s|].
  - rewrite Hop, Hp. by apply IH.
  - by rewrite IH.
Qed.

Lemma first_fit_pick (l1 l2 : list string) (p : string) (s : datetime)
    (bs : list interval) :
  Forall (rejected bs) l1 -> no_overflow l1 ->
  fromisoformat p = Some s -> in_rangeb s = true ->
  slot_overlaps s (slot_end s) bs = false ->
  first_fit (l1 ++ p :: l2) bs = (malformed l1, Pick s).
Proof.
  unfold no_overflow. intros Hrej Hov Hp Hr Hfree.
  induction l1 as [|q rest IH]; simpl.
  - by rewrite Hp, Hr, Hfree.
  - inversion Hrej as [|? ? Hq Hrest]; subst.
    inversion Hov as [|? ? Hoq Horest]; subst.
    rewrite malformed_cons. unfold is_malformed, rejected in *.
    destruct (fromisoformat q) as [d|].
    + rewrite Hoq, Hq. by apply IH.
    + by rewrite IH.
Qed.

Lemma first_fit_pick_inv (prefs sk : list string) (s : datetime)
    (bs : list interval) :
  first_fit prefs bs = (sk, Pick s) ->
  in_rangeb s = true /\ slot_overlaps s (slot_end s) bs = false
  /\ exists p, p ∈ prefs /\ fromisoformat p = Some s.
Proof.
  revert sk. induction prefs as [|p rest IH]; intros sk; simpl; [discriminate|].
  destruct (fromisoformat p) as [d|] eqn:Hp.
  - destruct (in_rangeb d) eqn:Hr; [|discriminate].
    destruct (slot_overlaps d (slot_end d) bs) eqn:Ho.
    + intros H. destruct (IH _ H) as (? & ? & q & Hq & ?).
      repeat split; try done. exists q. split; [by right|done].
    + intros [= <- <-]. repeat split; try done. exists p. split; [left|done].
  - destruct (first_fit rest bs) as [sk' d] eqn:Hf. intros [= <- ->].
    destruct (IH _ eq_refl) as (? & ? & q & Hq & ?).
    repeat split; try done. exists q. split; [by right|done].
Qed.

Lemma first_fit_no_overflow (prefs : list string) (bs : list interval) :
  no_overflow prefs -> (first_fit prefs bs).2 <> PickOverflow.
Proof.
  unfold no_overflow. induction prefs as [|p rest IH]; intros Hov; simpl;
    [discriminate|].
  inversion Hov as [|? ? Hop Horest]; subst.
  destruct (fromisoformat p) as [d|].
  - rewrite Hop. destruct (slot_overlaps _ _ _); [by apply IH|discriminate].
  - specialize (IH Horest). by destruct (first_fit rest bs).
Qed.

End FirstFit.

(** C1. First-fit over the stated preference order: on candidates whose slots
    do not overflow the datetime range, the loop books the first candidate, in
    the given order, that is well-formed and does not overlap the committed
    set, whatever comes after it; and it books nothing, leaving only warnings
    for the malformed candidates, when every candidate is malformed or
    conflicts, the empty list included. *)
Theorem first_fit_selection `{RT : Runtime} (name email : string)
    (prefs : list string) (st : state) :
  no_overflow prefs ->
  (forall (l1 l2 : list string) (p : string) (s : datetime),
      prefs = l1 ++ p :: l2 ->
      Forall (rejected (bookings st)) l1 ->
      fromisoformat p = Some s ->
      slot_overlaps s (slot_end s) (bookings st) = false ->
      try_prefs name email prefs st
      = (Ok true, booked_state name email s (warn (malformed l1) st)))
  /\ (Forall (rejected (bookings st)) prefs ->
      try_prefs name email prefs st = (Ok false, warn (malformed prefs) st)).
Proof.
  intros Hov. split.
  - intros l1 l2 p s -> Hrej Hp Hfree.
    unfold no_overflow in Hov. apply Forall_app in Hov as [Hov1 Hov2].
    inversion Hov2 as [|? ? Hr _]; subst. rewrite Hp in Hr.
    rewrite try_prefs_first_fit.
    by rewrite (first_fit_pick l1 l2 p s (bookings st)).
  - intros Hrej. rewrite try_prefs_first_fit.
    by rewrite first_fit_none.
Qed.

(** The candidates of the example: one malformed, two inside the committed
    hour 10:00-11:00, then 12:00. *)
Lemma first_fit_selection_witness :
  let st := set_bookings [(Civil.of_civil 2025 9 1 10 0 0 0,
                           Civil.of_civil 2025 9 1 11 0 0 0)]
              (initial None None) in
  let prefs := ["tomorrow"; "2025-09-01 10:00"; "2025-09-01 10:30";
                "2025-09-01 12:00"; "2025-09-01 09:00"] in
  no_overflow (RT := Civil.runtime) prefs
  /\ bookings (try_prefs (RT := Civil.runtime) "Ada" "a@x" prefs st).2
     = [(Civil.of_civil 2025 9 1 10 0 0 0, Civil.of_civil 2025 9 1 11 0 0 0);
        (Civil.of_civil 2025 9 1 12 0 0 0, Civil.of_civil 2025 9 1 12 30 0 0)].
Proof.
  intros st prefs.
  assert (Hov : no_overflow (RT := Civil.runtime) prefs).
  { subst prefs. forall_by_computation. }
  split; [exact Hov|].
  destruct (first_fit_selection (RT := Civil.runtime) "Ada" "a@x" prefs st Hov)
    as [Hpick _].
  rewrite (Hpick ["tomorrow"; "2025-09-01 10:00"; "2025-09-01 10:30"]
             ["2025-09-01 09:00"] "2025-09-01 12:00"
             (Civil.of_civil 2025 9 1 12 0 0 0) eq_refl).
  - reflexivity.
  - forall_by_computation.
  - reflexivity.
  - reflexivity.
Defined.

Section Trace.
Context `{RT : Runtime}.
Local Open Scope Z_scope.

Lemma checked_app (bs : list interval) (n1 n2 : list datetime) :
  checked bs (n1 ++ n2)
  <-> checked bs n1
      /\ checked (bs ++ map (fun s => (s, slot_end s)) n1) n2.
Proof.
  revert bs. induction n1 as [|s rest IH]; intros bs; simpl.
  - rewrite app_nil_r. tauto.
  - rewrite IH, <- app_assoc. simpl. tauto.
Qed.

Lemma no_overlap_checked (new : list datetime) :
  forall bs : list interval,
    no_overlap bs -> checked bs new ->
    no_overlap (bs ++ map (fun s => (s, slot_end s)) new).
Proof.
  induction new as [|s rest IH]; intros bs Hbs Hc; simpl.
  - by rewrite app_nil_r.
  - destruct Hc as (_ & Hfree & Hrest).
    change (bs ++ (s, slot_end s) :: map (fun s => (s, slot_end s)) rest)
      with (bs ++ [(s, slot_end s)] ++ map (fun s => (s, slot_end s)) rest).
    rewrite app_assoc. apply IH; [|done]. by apply no_overlap_snoc.
Qed.

Lemma made_slot_map (new : list made) :
  map made_slot new = map (fun s => (s, slot_end s)) (map snd new).
Proof. by rewrite map_map. Qed.

Lemma extends_by_refl (st st' : state) :
  bookings st' = bookings st -> journal st' = journal st ->
  existing_csv st' = existing_csv st -> scheduled st' = scheduled st ->
  intake_csv st' = intake_csv st ->
  extends_by st st' [].
Proof.
  intros H1 H2 H3 H4 H5. unfold extends_by. simpl.
  by rewrite !app_nil_r.
Qed.

Lemma extends_by_trans (st st1 st2 : state) (n1 n2 : list made) :
  extends_by st st1 n1 -> extends_by st1 st2 n2 ->
  extends_by st st2 (n1 ++ n2).
Proof.
  intros (Hb1 & Hj1 & He1 & Hs1 & Hi1 & Hc1) (Hb2 & Hj2 & He2 & Hs2 & Hi2 & Hc2).
  unfold extends_by.
  rewrite !map_app, flat_map_app, fold_left_app, !app_assoc.
  rewrite <- Hb1, <- Hj1, <- He1, <- Hs1. repeat split; try done.
  - congruence.
  - apply checked_app. split; [done|].
    by rewrite <- made_slot_map, <- Hb1.
Qed.

Lemma extends_by_booked (name email : string) (s : datetime) (sk : list string)
    (st : state) :
  in_rangeb s = true -> slot_overlaps s (slot_end s) (bookings st) = false ->
  extends_by st (booked_state name email s (warn sk st)) [(name, email, s)].
Proof. intros Hr Hfree. unfold extends_by. simpl. by repeat split. Qed.

(** One request adds at most one booking, taken from its own candidates. *)
Lemma process_row_extends (row : dict_row) (st : state) :
  exists new : list made,
    extends_by st (process_row row st).2 new
    /\ Forall (fun b => exists p, p ∈ row_prefs row /\ fromisoformat p = Some b.2) new.
Proof.
  rewrite process_row_first_fit.
  destruct (parse_row row) as [name email prefs|name|e] eqn:Hrow.
  - assert (Hprefs : prefs = row_prefs row).
    { unfold parse_row, row_prefs in *.
      destruct (row !! "name") as [[n|]|]; try discriminate.
      destruct (row !! "email") as [[e|]|]; try discriminate.
      destruct (get_default row "preferred_slots" (Some "")) as [raw|];
        try discriminate.
      destruct (Py.truthy (Py.strip raw)); congruence. }
    destruct (first_fit prefs (bookings st)) as [sk [s| |]] eqn:Hf.
    + apply first_fit_pick_inv in Hf as (Hr & Hfree & p & Hp & Hps).
      exists [(name, email, s)]. split; [by apply extends_by_booked|].
      apply List.Forall_cons; [|apply List.Forall_nil].
      exists p. by rewrite <- Hprefs.
    + exists []. split; [by apply extends_by_refl|apply List.Forall_nil].
    + exists []. split; [by apply extends_by_refl|apply List.Forall_nil].
  - exists []. split; [by apply extends_by_refl|apply List.Forall_nil].
  - exists []. split; [by apply extends_by_refl|apply List.Forall_nil].
Qed.

(** The loop over the requests adds a sequence of checked bookings, whether
    it ends normally or by an exception. *)
Lemma for_rows_extends (rows : list dict_row) :
  forall st : state,
  exists new : list made,
    extends_by st (for_rows rows st).2 new
    /\ Forall (fun b => b.2 ∈ row_slots rows) new.
Proof.
  induction rows as [|row rest IH]; intros st.
  - exists []. split; [by apply extends_by_refl|apply List.Forall_nil].
  - destruct (process_row_extends row st) as (n1 & H1 & Hs1).
    assert (Hin1 : Forall (fun b : made => b.2 ∈ row_slots (row :: rest)) n1).
    { eapply Forall_impl; [exact Hs1|]. intros b (p & Hp & Hb).
      unfold row_slots. apply list_elem_of_omap. exists p. split; [|done].
      simpl. apply elem_of_app. by left. }
    simpl. unfold bind. destruct (process_row row st) as [[[]|e] st1]; simpl in *.
    + destruct (IH st1) as (n2 & H2 & Hs2).
      exists (n1 ++ n2). split; [by eapply extends_by_trans|].
      apply Forall_app. split; [done|].
      eapply Forall_impl; [exact Hs2|]. intros b Hb.
      unfold row_slots in *. apply list_elem_of_omap in Hb as (p & Hp & Hb).
      apply list_elem_of_omap. exists p. split; [|done].
      simpl. apply elem_of_app. by right.
    + exists n1. done.
Qed.

End Trace.

(** C2. Ledger invariant: if no two intervals of the committed set overlap
    before the requests are processed, then no two overlap after any sequence
    of requests has been processed, whether the loop ends normally or stops on
    an exception. *)
Theorem ledger_no_overlap `{RT : Runtime} (rows : list dict_row) (st : state) :
  no_overlap (bookings st) -> no_overlap (bookings (for_rows rows st).2).
Proof.
  intros Hst.
  destruct (for_rows_extends rows st) as (new & (Hb & _ & _ & _ & _ & Hc) & _).
  rewrite Hb, made_slot_map. by apply no_overlap_checked.
Qed.

Lemma ledger_no_overlap_witness :
  let st := set_bookings
              [(Civil.of_civil 2025 9 1 10 0 0 0, Civil.of_civil 2025 9 1 11 0 0 0);
               (Civil.of_civil 2025 9 1 13 0 0 0, Civil.of_civil 2025 9 1 14 0 0 0)]
              (initial None None) in
  let rows := DictReader
                [intake_header;
                 ["Ada"; "ada@clinic.example"; "2025-09-01 10:30;2025-09-01 11:00"];
                 ["Bo"; "bo@clinic.example"; "2025-09-01 11:15;2025-09-01 12:00"]] in
  no_overlap (bookings st)
  /\ no_overlap (bookings (for_rows (RT := Civil.runtime) rows st).2).
Proof.
  intros st rows.
  assert (H : no_overlap (bookings st)).
  { intros i j a b Hij Hi Hj.
    destruct i as [|[|i]], j as [|[|j]]; simpl in Hi, Hj; try done;
      injection Hi as <-; injection Hj as <-; vm_compute; intros [? ?]; done. }
  split; [exact H|exact (ledger_no_overlap (RT := Civil.runtime) rows st H)].
Defined.

Section WholeRun.
Context `{RT : Runtime}.
Local Open Scope Z_scope.

Lemma same_files_refl (st : state) : same_files st st.
Proof. by repeat split. Qed.

Lemma same_files_trans (a b c : state) :
  same_files a b -> same_files b c -> same_files a c.
Proof. unfold same_files. intuition congruence. Qed.

Lemma same_files_say (line : string) (st : state) : same_files st (say line st).
Proof. by repeat split. Qed.

Lemma same_files_warn (ps : list string) (st : state) : same_files st (warn ps st).
Proof. by repeat split. Qed.

Lemma read_rows_state (rows : list dict_row) :
  forall (acc : list interval) (st : state), (read_rows rows acc st).2 = st.
Proof.
  induction rows as [|r rest IH]; intros acc st; simpl; [done|].
  unfold bind, getitem, parse_cell.
  destruct (r !! "start") as [[vs|]|]; simpl; try done.
  destruct (fromisoformat vs); simpl; try done.
  destruct (r !! "end") as [[ve|]|]; simpl; try done.
  destruct (fromisoformat ve); simpl; try done.
Qed.

(** Loading reads the file and changes nothing. *)
Lemma read_existing_bookings_state (st : state) :
  (read_existing_bookings st).2 = st.
Proof.
  unfold read_existing_bookings, bind, gets.
  destruct (existing_csv st); [apply read_rows_state|done].
Qed.

Lemma print_scheduled_ok (l : list scheduled_entry) :
  forall st : state,
    (print_scheduled l st).1 = Ok tt /\ same_files st (print_scheduled l st).2.
Proof.
  induction l as [|[[[name email] start_text] file] rest IH]; intros st; simpl.
  - split; [done|apply same_files_refl].
  - unfold bind, print, modify.
    destruct (IH (set_stdout
                    (stdout st ++ [Py.print_line ["-"; name; start_text; "("; file; ")"]])
                    st)) as [H1 H2].
    split; [done|]. eapply same_files_trans; [|exact H2]. by repeat split.
Qed.

(** [main], statement by statement. *)
Lemma main_unfold (st : state) :
  main st =
  match intake_csv st with
  | None =>
      (Raise (SystemExit 1),
       say (Py.print_line ["Create intake_responses.csv next to this script. See sample file provided."]) st)
  | Some f =>
      match read_existing_bookings st with
      | (Raise e, st1) => (Raise e, st1)
      | (Ok bs, st1) =>
          match for_rows (DictReader f) (loop_entry bs st1) with
          | (Raise e, st2) => (Raise e, st2)
          | (Ok _, st2) =>
              print_scheduled (scheduled st2)
                (say (Py.print_line
                        ["Successfully scheduled " +:+ pretty (length (scheduled st2))
                           +:+ " appointment(s)."])
                   (say (Py.print_line [Py.nl +:+ "Summary:"]) st2))
          end
      end
  end.
Proof.
  unfold main, bind, gets, modify, print, raise, say, loop_entry.
  destruct (intake_csv st); [|reflexivity].
  destruct (read_existing_bookings st) as [[bs|e] st1]; [|reflexivity].
  destruct (for_rows _ _) as [[[]|e] st2]; reflexivity.
Qed.

(** The three ways a run goes: no intake file; the bookings file cannot be
    loaded; or the loop runs from the loaded list, and the summary follows
    when it ends normally. *)
Lemma main_cases (st : state) :
  (intake_csv st = None /\ (main st).1 = Raise (SystemExit 1)
     /\ same_files st (main st).2)
  \/ (exists e, (read_existing_bookings st).1 = Raise e /\ main st = (Raise e, st))
  \/ (exists f bs,
        intake_csv st = Some f /\ (read_existing_bookings st).1 = Ok bs
        /\ (main st).1 = (for_rows (DictReader f) (loop_entry bs st)).1
        /\ same_files (for_rows (DictReader f) (loop_entry bs st)).2 (main st).2).
Proof.
  rewrite main_unfold.
  destruct (intake_csv st) as [f|] eqn:Hin.
  - right.
    pose proof (read_existing_bookings_state st) as Hst.
    destruct (read_existing_bookings st) as [[bs|e] st1]; simpl in Hst; subst st1.
    + right. exists f, bs. split; [done|]. split; [done|].
      destruct (for_rows (DictReader f) (loop_entry bs st)) as [[[]|e] st2]; cbn [fst snd].
      * match goal with
        | |- context [print_scheduled ?l ?s] =>
            destruct (print_scheduled_ok l s) as [H1 H2]
        end.
        split; [done|]. eapply same_files_trans; [|exact H2]. by repeat split.
      * split; [done|apply same_files_refl].
    + left. exists e. done.
  - left. split; [done|]. split; [done|]. apply same_files_say.
Qed.

End WholeRun.

(** C5 as the code has it. Each booking of a run leaves exactly two durable
    writes, next to each other: first its invite, then the append of its
    interval to the bookings file. The journal of a run grows by the sequence
    of these pairs, one pair per booking, the bookings file grows by the same
    intervals in the same order, and after a run that ends normally
    [scheduled] lists the same bookings with the paths of their invites. *)
Theorem invite_then_append `{RT : Runtime} (st : state) :
  exists new : list made,
    journal (main st).2 = journal st ++ flat_map made_events new
    /\ existing_csv (main st).2
       = fold_left appended (map made_slot new) (existing_csv st)
    /\ ((main st).1 = Ok tt -> scheduled (main st).2 = map made_entry new).
Proof.
  destruct (main_cases st)
    as [(_ & Hexit & Hs)|[(e & _ & Hm)|(f & bs & _ & _ & _ & Hs)]].
  - exists []. destruct Hs as (_ & He & _ & _ & Hj & _). simpl.
    rewrite app_nil_r. split; [done|]. split; [done|].
    rewrite Hexit. discriminate.
  - exists []. rewrite Hm. simpl. rewrite app_nil_r.
    split; [done|]. split; [done|]. discriminate.
  - destruct (for_rows_extends (DictReader f) (loop_entry bs st))
      as (new & (_ & Hj & He & Hsch & _) & _).
    exists new. destruct Hs as (_ & He' & _ & _ & Hj' & _ & Hsch').
    rewrite Hj', He', Hsch', Hj, He, Hsch. done.
Qed.

(** C5 as stated fails: in the run of one request on an empty ledger the
    invite is written first, before any append. *)
Lemma invite_precedes_append :
  let st := initial (Some [intake_header;
                           ["Bo"; "bo@clinic.example"; "2025-09-01 09:00"]]) None in
  journal (main (RT := Civil.runtime) st).2
  = [InviteWritten "/srv/project_b/out/invite_Bo_20250901T0900.ics";
     BookingAppended (Civil.of_civil 2025 9 1 9 0 0 0)
       (Civil.of_civil 2025 9 1 9 30 0 0)]
  /\ ~ invite_follows_append (journal (main (RT := Civil.runtime) st).2).
Proof.
  intros st.
  assert (H : journal (main (RT := Civil.runtime) st).2
              = [InviteWritten "/srv/project_b/out/invite_Bo_20250901T0900.ics";
                 BookingAppended (Civil.of_civil 2025 9 1 9 0 0 0)
                   (Civil.of_civil 2025 9 1 9 30 0 0)]) by (vm_compute; reflexivity).
  split; [exact H|]. rewrite H. intros Hc.
  destruct (Hc 0%nat _ eq_refl) as (k & s & e & Hk & _). lia.
Qed.

Section Store.
Context `{RT : Runtime}.
Local Open Scope Z_scope.

(** What loading returns depends on the bookings file alone. *)
Lemma read_rows_indep (rows : list dict_row) :
  forall (acc : list interval) (st st' : state),
    (read_rows rows acc st).1 = (read_rows rows acc st').1.
Proof.
  induction rows as [|r rest IH]; intros acc st st'; simpl; [done|].
  unfold bind, getitem, parse_cell.
  destruct (r !! "start") as [[vs|]|]; simpl; try done.
  destruct (fromisoformat vs); simpl; try done.
  destruct (r !! "end") as [[ve|]|]; simpl; try done.
  destruct (fromisoformat ve); simpl; try done.
Qed.

Lemma read_existing_bookings_indep (st st' : state) :
  existing_csv st' = existing_csv st ->
  (read_existing_bookings st').1 = (read_existing_bookings st).1.
Proof.
  intros H. unfold read_existing_bookings, bind, gets. rewrite H.
  destruct (existing_csv st); [apply read_rows_indep|done].
Qed.

Lemma read_rows_app (l1 l2 : list dict_row) :
  forall (acc : list interval) (st : state),
    read_rows (l1 ++ l2) acc st =
    match read_rows l1 acc st with
    | (Ok acc', st') => read_rows l2 acc' st'
    | (Raise e, st') => (Raise e, st')
    end.
Proof.
  induction l1 as [|r rest IH]; intros acc st; simpl; [done|].
  unfold bind, getitem, parse_cell.
  destruct (r !! "start") as [[vs|]|]; simpl; try done.
  destruct (fromisoformat vs); simpl; try done.
  destruct (r !! "end") as [[ve|]|]; simpl; try done.
  destruct (fromisoformat ve); simpl; try done.
Qed.

(** The row that the reader makes of a record written by the program. *)
Lemma read_rows_booking (iv : interval) (acc : list interval) (st : state) :
  interval_reads_back iv ->
  read_rows [zip_row ["start"; "end"] (booking_record iv) ∅] acc st
  = (Ok (acc ++ [iv]), st).
Proof.
  intros [Hs He]. destruct iv as [s e]. unfold reads_back in *. simpl in *.
  unfold bind, getitem, parse_cell.
  rewrite lookup_insert_ne by done. rewrite lookup_insert_eq. simpl.
  rewrite Hs. simpl. rewrite lookup_insert_eq. simpl. by rewrite He.
Qed.

Lemma DictReader_snoc (header : list string) (records : csv_file)
    (iv : interval) :
  DictReader (header :: records ++ [booking_record iv])
  = DictReader (header :: records) ++ [zip_row header (booking_record iv) ∅].
Proof. unfold DictReader. by rewrite filter_app, map_app. Qed.

(** One append to a headed file is one more interval at the end of what
    loading returns. *)
Lemma read_appended (st st' : state) (iv : interval) (bs : list interval) :
  store_headed (existing_csv st) -> interval_reads_back iv ->
  (read_existing_bookings st).1 = Ok bs ->
  existing_csv st' = appended (existing_csv st) iv ->
  (read_existing_bookings st').1 = Ok (bs ++ [iv])
  /\ store_headed (existing_csv st').
Proof.
  intros Hh Hiv Hread Hst'.
  unfold read_existing_bookings, bind, gets in *. rewrite Hst'.
  destruct Hh as [Hnone|[records Hsome]].
  - rewrite Hnone in *. simpl in Hread. injection Hread as <-.
    unfold appended. cbn [file_records closed_file].
    split; [|right; by eexists].
    change (DictReader [["start"; "end"]; booking_record iv])
      with [zip_row ["start"; "end"] (booking_record iv) ∅].
    by rewrite read_rows_booking.
  - rewrite Hsome in *. unfold appended, write_row.
    cbn [file_records closed_file unterminated] in *.
    split; [|right; by eexists].
    change ((["start"; "end"] :: records) ++ [booking_record iv])
      with (["start"; "end"] :: records ++ [booking_record iv]).
    rewrite DictReader_snoc, read_rows_app.
    rewrite (surjective_pairing (read_rows _ [] st')).
    rewrite (read_rows_indep _ _ st' st), Hread.
    by rewrite read_rows_booking.
Qed.

Lemma read_fold_appended (ivs : list interval) :
  forall (st st' : state) (bs : list interval),
    store_headed (existing_csv st) -> Forall interval_reads_back ivs ->
    (read_existing_bookings st).1 = Ok bs ->
    existing_csv st' = fold_left appended ivs (existing_csv st) ->
    (read_existing_bookings st').1 = Ok (bs ++ ivs).
Proof.
  induction ivs as [|iv rest IH]; intros st st' bs Hh Hrb Hread Hst'; simpl in *.
  - rewrite app_nil_r. by rewrite (read_existing_bookings_indep st st').
  - inversion Hrb as [|? ? Hiv Hrest]; subst.
    destruct (read_appended st (set_existing_csv (appended (existing_csv st) iv) st)
                iv bs Hh Hiv Hread eq_refl) as [Hread1 Hh1].
    rewrite (IH _ st' (bs ++ [iv]) Hh1 Hrest Hread1 Hst').
    by rewrite <- app_assoc.
Qed.

(** No bookings file: nothing loaded, nothing changed. *)
Lemma read_no_file (st : state) :
  existing_csv st = None -> read_existing_bookings st = (Ok [], st).
Proof. intros H. unfold read_existing_bookings, bind, gets. by rewrite H. Qed.

Lemma record_all_existing (ivs : list interval) :
  forall st : state,
    existing_csv (record_all ivs st) = fold_left appended ivs (existing_csv st).
Proof.
  unfold record_all.
  induction ivs as [|iv rest IH]; intros st; simpl; [done|].
  rewrite IH. f_equal. unfold append_booking_to_existing, bind, gets, modify.
  simpl. destruct iv. by destruct (existing_csv st).
Qed.

End Store.

(** X23. Loading the ledger: with no bookings file, loading returns the
    empty list and changes nothing; and on a bookings file that is absent, or
    begins with the header the program writes and ends with a line break,
    after the intervals [ivs] are recorded one by one, loading returns what it
    returned before followed by [ivs], in the order they were recorded (the
    texts written by [isoformat] being read back by [fromisoformat]). *)
Theorem load_returns_recorded `{RT : Runtime} :
  (forall st : state,
      existing_csv st = None -> read_existing_bookings st = (Ok [], st))
  /\ (forall (st : state) (bs ivs : list interval),
        store_headed (existing_csv st) ->
        Forall interval_reads_back ivs ->
        (read_existing_bookings st).1 = Ok bs ->
        (read_existing_bookings (record_all ivs st)).1 = Ok (bs ++ ivs)).
Proof.
  split.
  - exact read_no_file.
  - intros st bs ivs Hh Hrb Hread.
    apply (read_fold_appended ivs st); try done. apply record_all_existing.
Qed.

Lemma load_returns_recorded_witness :
  let ivs := [(Civil.of_civil 2025 9 1 9 0 0 0, Civil.of_civil 2025 9 1 9 30 0 0);
              (Civil.of_civil 2025 9 1 8 0 0 0, Civil.of_civil 2025 9 1 8 30 0 0)] in
  let st := initial None None in
  store_headed (existing_csv st)
  /\ Forall (interval_reads_back (RT := Civil.runtime)) ivs
  /\ (read_existing_bookings (RT := Civil.runtime) st).1 = Ok []
  /\ (read_existing_bookings (RT := Civil.runtime)
        (record_all (RT := Civil.runtime) ivs st)).1 = Ok ivs.
Proof.
  intros ivs st.
  assert (Hh : store_headed (existing_csv st)) by (left; reflexivity).
  assert (Hrb : Forall (interval_reads_back (RT := Civil.runtime)) ivs).
  { subst ivs. forall_by_computation. }
  assert (Hread : (read_existing_bookings (RT := Civil.runtime) st).1 = Ok [])
    by reflexivity.
  split; [exact Hh|]. split; [exact Hrb|]. split; [exact Hread|].
  exact (proj2 (load_returns_recorded (RT := Civil.runtime)) st [] ivs Hh Hrb Hread).
Defined.

(** C8. Loading does not always return what was recorded.  On a bookings
    file that exists but is empty, [append_booking_to_existing] writes no
    header: the first record appended takes the place of the header, so loading
    after one booking returns no interval, loading after two raises KeyError
    (the file has no start column), and a second run on the same request books
    the same slot again.  On a file whose last line has no line break, the row
    appended continues that line, and loading raises ValueError on the field so
    formed. *)
Theorem load_loses_recorded :
  let iv1 := (sept1 9 0, sept1 9 30) in
  let iv2 := (sept1 10 0, sept1 10 30) in
  let empty := initial None (Some (closed_file [])) in
  let cut := initial None
               (Some (mkFile [["start"; "end"];
                              ["2025-09-01T08:00:00"; "2025-09-01T08:30:00"]]
                        true)) in
  let st := initial (Some [intake_header;
                           ["Ada"; "ada@clinic.example"; "2025-09-01 09:00"]])
              (Some (closed_file [])) in
  (read_existing_bookings (RT := Civil.runtime) empty).1 = Ok []
  /\ existing_csv (record_all (RT := Civil.runtime) [iv1] empty)
     = Some (closed_file [["2025-09-01T09:00:00"; "2025-09-01T09:30:00"]])
  /\ (read_existing_bookings (RT := Civil.runtime)
        (record_all (RT := Civil.runtime) [iv1] empty)).1 = Ok []
  /\ (read_existing_bookings (RT := Civil.runtime)
        (record_all (RT := Civil.runtime) [iv1; iv2] empty)).1
     = Raise (KeyError "start")
  /\ existing_csv (main (RT := Civil.runtime) (main (RT := Civil.runtime) st).2).2
     = Some (closed_file [["2025-09-01T09:00:00"; "2025-09-01T09:30:00"];
                          ["2025-09-01T09:00:00"; "2025-09-01T09:30:00"]])
  /\ (read_existing_bookings (RT := Civil.runtime) cut).1
     = Ok [(sept1 8 0, sept1 8 30)]
  /\ existing_csv (record_all (RT := Civil.runtime) [iv1] cut)
     = Some (closed_file
               [["start"; "end"];
                ["2025-09-01T08:00:00"; "2025-09-01T08:30:002025-09-01T09:00:00";
                 "2025-09-01T09:30:00"]])
  /\ (read_existing_bookings (RT := Civil.runtime)
        (record_all (RT := Civil.runtime) [iv1] cut)).1 = Raise ValueError.
Proof. vm_compute. repeat split. Qed.

Section Rerun.
Context `{RT : Runtime}.
Local Open Scope Z_scope.

Lemma parse_row_prefs (row : dict_row) (name email : string)
    (prefs : list string) :
  parse_row row = Request name email prefs -> prefs = row_prefs row.
Proof.
  unfold parse_row, row_prefs.
  destruct (row !! "name") as [[n|]|]; try discriminate.
  destruct (row !! "email") as [[e|]|]; try discriminate.
  destruct (get_default row "preferred_slots" (Some "")) as [raw|];
    try discriminate.
  destruct (Py.truthy (Py.strip raw)); congruence.
Qed.

(** A request with at most one candidate, run against a committed set that
    holds whatever its first run left: it ends as the first run did, and
    books nothing. *)
Lemma process_row_rerun (row : dict_row) (stA stB : state) :
  (length (row_prefs row) <= 1)%nat ->
  (forall iv, iv ∈ bookings (process_row row stA).2 -> iv ∈ bookings stB) ->
  (process_row row stB).1 = (process_row row stA).1
  /\ same_files stB (process_row row stB).2.
Proof.
  intros Hlen. rewrite !process_row_first_fit.
  destruct (parse_row row) as [name email prefs|name|e] eqn:Hrow.
  - apply parse_row_prefs in Hrow. rewrite <- Hrow in Hlen.
    destruct prefs as [|p [|q rest]]; simpl in Hlen; [| |lia].
    + simpl. intros _. split; [done|].
      eapply same_files_trans; [apply same_files_warn|apply same_files_say].
    + simpl. destruct (fromisoformat p) as [s|].
      * destruct (in_rangeb s) eqn:Hr.
        -- assert (HB : (forall iv, iv ∈ bookings stA ++ [(s, slot_end s)]
                                    -> iv ∈ bookings stB)
                        \/ (slot_overlaps s (slot_end s) (bookings stA) = true
                            /\ forall iv, iv ∈ bookings stA -> iv ∈ bookings stB)
                        -> slot_overlaps s (slot_end s) (bookings stB) = true).
           { intros [H|[H1 H2]].
             - apply slot_overlaps_self; [apply slot_end_gt|].
               apply H. apply elem_of_app. right. by left.
             - by eapply slot_overlaps_mono. }
           destruct (slot_overlaps s (slot_end s) (bookings stA)) eqn:HoA; simpl.
           ++ intros Hsub. rewrite HB by (right; done). simpl.
              split; [done|].
              eapply same_files_trans; [apply same_files_warn|apply same_files_say].
           ++ intros Hsub. rewrite HB by (left; done). simpl.
              split; [done|].
              eapply same_files_trans; [apply same_files_warn|apply same_files_say].
        -- simpl. intros _. split; [done|apply same_files_warn].
      * simpl. intros _. split; [done|].
        eapply same_files_trans; [apply same_files_warn|apply same_files_say].
  - simpl. intros _. split; [done|apply same_files_say].
  - simpl. intros _. split; [done|apply same_files_refl].
Qed.

(** The committed set only grows along the loop. *)
Lemma for_rows_bookings_mono (rows : list dict_row) (st : state) (iv : interval) :
  iv ∈ bookings st -> iv ∈ bookings (for_rows rows st).2.
Proof.
  intros Hin. destruct (for_rows_extends rows st) as (new & (Hb & _) & _).
  rewrite Hb. apply elem_of_app. by left.
Qed.

Lemma for_rows_rerun (rows : list dict_row) :
  forall stA stB : state,
    Forall (fun row => (length (row_prefs row) <= 1)%nat) rows ->
    (forall iv, iv ∈ bookings (for_rows rows stA).2 -> iv ∈ bookings stB) ->
    same_files stB (for_rows rows stB).2.
Proof.
  induction rows as [|row rest IH]; intros stA stB Hone Hsub.
  - apply same_files_refl.
  - inversion Hone as [|? ? Hrow Hrest]; subst.
    simpl in *. unfold bind in *.
    destruct (process_row_rerun row stA stB Hrow) as [Hres Hsame].
    { intros iv Hiv. apply Hsub.
      destruct (process_row row stA) as [[[]|e] stA1]; simpl in *; [|done].
      by apply for_rows_bookings_mono. }
    destruct (process_row row stB) as [rB stB1]; simpl in *.
    destruct (process_row row stA) as [rA stA1]; simpl in *. subst rB.
    destruct rA as [[]|e]; simpl in *; [|done].
    eapply same_files_trans; [exact Hsame|].
    apply (IH stA1); [done|].
    intros iv Hiv. destruct Hsame as (_ & _ & _ & _ & _ & -> & _).
    by apply Hsub.
Qed.

End Rerun.

(** X24. Requests with one candidate are not booked twice.  When every
    request lists at most one candidate slot, the bookings file is absent or
    begins with the header the program writes and ends with a line break, and
    the times of the candidates are read back from the texts written for them,
    a second run on the same input and on the store left by the first run
    records nothing: the bookings file and the journal of durable writes are
    unchanged, so the number of committed intervals after two runs equals the
    number after one. *)
Theorem rerun_records_nothing `{RT : Runtime} (st : state) (f : csv_file) :
  intake_csv st = Some f ->
  store_headed (existing_csv st) ->
  Forall (fun row => (length (row_prefs row) <= 1)%nat) (DictReader f) ->
  Forall (fun d => reads_back d /\ reads_back (slot_end d))
    (row_slots (DictReader f)) ->
  existing_csv (main (main st).2).2 = existing_csv (main st).2
  /\ journal (main (main st).2).2 = journal (main st).2
  /\ committed_count (main (main st).2).2 = committed_count (main st).2.
Proof.
  intros Hin Hh Hone Hrb.
  assert (Hgoal : existing_csv (main (main st).2).2 = existing_csv (main st).2
                  /\ journal (main (main st).2).2 = journal (main st).2).
  2:{ destruct Hgoal as [He Hj]. unfold committed_count. by rewrite He. }
  destruct (main_cases st)
    as [(Hnone & _)|[(e & _ & Hm)|(f1 & bs & Hin1 & Hread & _ & Hs1)]].
  - congruence.
  - rewrite Hm. simpl. by rewrite Hm.
  - assert (f1 = f) by congruence. subst f1.
    set (rows := DictReader f) in *.
    set (stL := (for_rows rows (loop_entry bs st)).2) in *.
    destruct (for_rows_extends rows (loop_entry bs st))
      as (new & (Hb & Hj & He & _ & Hi & _) & Hnew).
    fold stL in Hb, Hj, He, Hi. simpl in Hb, Hj, He, Hi.
    destruct Hs1 as (Hi1 & He1 & _ & _ & Hj1 & Hb1 & _).
    set (st1 := (main st).2) in *.
    assert (Hread1 : (read_existing_bookings st1).1 = Ok (bs ++ map made_slot new)).
    { apply (read_fold_appended (map made_slot new) st); try done.
      - apply Forall_forall. intros iv Hiv.
        apply list_elem_of_fmap in Hiv as (b & -> & Hb').
        rewrite Forall_forall in Hnew. specialize (Hnew b Hb').
        rewrite Forall_forall in Hrb. by apply Hrb.
      - by rewrite He1, He. }
    destruct (main_cases st1)
      as [(Hnone & _)|[(e & He2 & _)|(f2 & bs2 & Hin2 & Hread2 & _ & Hs2)]].
    + rewrite Hi1, Hi in Hnone. congruence.
    + congruence.
    + assert (f2 = f) by congruence. subst f2. fold rows in Hs2.
      assert (bs2 = bs ++ map made_slot new) by congruence. subst bs2.
      pose proof (for_rows_rerun rows (loop_entry bs st)
                    (loop_entry (bs ++ map made_slot new) st1) Hone) as Hq.
      destruct Hq as (_ & He3 & _ & _ & Hj3 & _).
      { fold stL. rewrite Hb. done. }
      destruct Hs2 as (_ & He4 & _ & _ & Hj4 & _).
      rewrite He4, Hj4, He3, Hj3. done.
Qed.

Lemma rerun_records_nothing_witness :
  let f := [intake_header;
            ["Ada"; "ada@clinic.example"; "2025-09-01 09:00"];
            ["Bo"; "bo@clinic.example"; "2025-09-01 09:00"];
            ["Cy"; "cy@clinic.example"; " 2025-09-01 10:00 ;"]] in
  let st := initial (Some f) None in
  intake_csv st = Some f
  /\ store_headed (existing_csv st)
  /\ Forall (fun row => (length (row_prefs row) <= 1)%nat) (DictReader f)
  /\ Forall (fun d => reads_back (RT := Civil.runtime) d
                      /\ reads_back (RT := Civil.runtime) (slot_end d))
       (row_slots (RT := Civil.runtime) (DictReader f))
  /\ committed_count (main (RT := Civil.runtime) st).2 = 2%nat
  /\ existing_csv (main (RT := Civil.runtime) (main (RT := Civil.runtime) st).2).2
     = existing_csv (main (RT := Civil.runtime) st).2.
Proof.
  intros f st.
  assert (H1 : intake_csv st = Some f) by reflexivity.
  assert (H2 : store_headed (existing_csv st)) by (left; reflexivity).
  assert (H3 : Forall (fun row => (length (row_prefs row) <= 1)%nat) (DictReader f)).
  { repeat (apply List.Forall_cons; [vm_compute; lia|]). apply List.Forall_nil. }
  assert (H4 : Forall (fun d => reads_back (RT := Civil.runtime) d
                                /\ reads_back (RT := Civil.runtime) (slot_end d))
                 (row_slots (RT := Civil.runtime) (DictReader f))).
  { repeat (apply List.Forall_cons; [vm_compute; done|]). apply List.Forall_nil. }
  split; [exact H1|]. split; [exact H2|]. split; [exact H3|]. split; [exact H4|].
  split; [vm_compute; reflexivity|].
  exact (proj1 (rerun_records_nothing (RT := Civil.runtime) st f H1 H2 H3 H4)).
Defined.

(** C3. A second run is not idempotent.  The bookings file keeps intervals
    only, not the request each was made for: a request with two free
    candidates is booked at the first in the first run and, that slot being
    taken, at the second in the second run, so the second run adds a booking
    for a request that the first run had scheduled. *)
Lemma rerun_books_next_candidate :
  let st := initial (Some [intake_header;
                           ["Ada"; "ada@clinic.example";
                            "2025-09-01 09:00;2025-09-01 10:00"]]) None in
  let st1 := (main (RT := Civil.runtime) st).2 in
  let st2 := (main (RT := Civil.runtime) st1).2 in
  (main (RT := Civil.runtime) st).1 = Ok tt
  /\ (main (RT := Civil.runtime) st1).1 = Ok tt
  /\ (read_existing_bookings (RT := Civil.runtime) st1).1
     = Ok [(Civil.of_civil 2025 9 1 9 0 0 0, Civil.of_civil 2025 9 1 9 30 0 0)]
  /\ (read_existing_bookings (RT := Civil.runtime) st2).1
     = Ok [(Civil.of_civil 2025 9 1 9 0 0 0, Civil.of_civil 2025 9 1 9 30 0 0);
           (Civil.of_civil 2025 9 1 10 0 0 0, Civil.of_civil 2025 9 1 10 30 0 0)]
  /\ committed_count st1 = 1%nat
  /\ committed_count st2 = 2%nat
  /\ committed_count st2 <> committed_count st1.
Proof. vm_compute. repeat split; discriminate. Qed.

Section Requests.
Context `{RT : Runtime}.
Local Open Scope Z_scope.

Lemma first_fit_all_malformed (prefs : list string) (bs : list interval) :
  Forall (fun p => fromisoformat p = None) prefs ->
  first_fit prefs bs = (prefs, NoPick).
Proof.
  induction prefs as [|p rest IH]; intros H; [done|].
  inversion H as [|? ? Hp Hrest]; subst. simpl. rewrite Hp.
  by rewrite IH.
Qed.

Lemma first_fit_exists (prefs : list string) (bs : list interval) (p : string)
    (d : datetime) :
  no_overflow prefs -> p ∈ prefs -> fromisoformat p = Some d ->
  slot_overlaps d (slot_end d) bs = false ->
  exists s sk, first_fit prefs bs = (sk, Pick s).
Proof.
  unfold no_overflow. intros Hov Hin Hp Hfree.
  induction prefs as [|q rest IH]; [by inversion Hin|].
  inversion Hov as [|? ? Hoq Horest]; subst. simpl.
  destruct (fromisoformat q) as [s|] eqn:Hq.
  - rewrite Hoq. destruct (slot_overlaps s (slot_end s) bs) eqn:Ho.
    + apply IH; [done|].
      apply elem_of_cons in Hin as [->|Hin]; [|done]. congruence.
    + by exists s, [].
  - assert (Hin' : p ∈ rest).
    { apply elem_of_cons in Hin as [->|Hin]; [congruence|done]. }
    destruct (IH Horest Hin') as (s & sk & ->). by exists s, (q :: sk).
Qed.

Lemma split_prefs_blank (s : string) : Py.truthy s = false -> split_prefs s = [].
Proof.
  unfold Py.truthy. intros H. apply negb_false_iff, String.eqb_eq in H.
  by subst s.
Qed.

(** The row that the reader makes of a full intake record. *)
Lemma parse_intake_record (n e raw : string) :
  parse_row (zip_row intake_header [n; e; raw] ∅)
  = if Py.truthy (Py.strip raw)
    then Request (Py.strip n) (Py.strip e) (split_prefs (Py.strip raw))
    else NoPrefs (Py.strip n).
Proof.
  unfold parse_row, get_default, intake_header. simpl.
  rewrite lookup_insert_ne by done. rewrite lookup_insert_ne by done.
  rewrite lookup_insert_eq.
  rewrite lookup_insert_ne by done. rewrite lookup_insert_eq.
  by rewrite lookup_insert_eq.
Qed.

End Requests.

(** C6 as the code has it. A candidate with a malformed timestamp is skipped
    with a warning and the loop goes on with the next candidate.  For a record
    whose name, email and preferred_slots fields are text: when all its
    candidates are malformed, the request ends unbooked with the same report as
    a request whose candidates all conflict, nothing else changing, and the
    loop goes on with the next record.  For a record whose name and email are
    text and whose preferred_slots column is absent from the file or blank:
    the request is reported and the loop goes on with the next record.  And a
    record that lacks a field of a column that the file has (name, email or
    preferred_slots), or a file that lacks the name or the email column, makes
    the body raise: the loop ends there and the later records are not
    processed. *)
Theorem malformed_candidates_do_not_abort `{RT : Runtime} :
  (forall (name email p : string) (rest : list string) (st : state),
      fromisoformat p = None ->
      try_prefs name email (p :: rest) st
      = try_prefs name email rest (say (invalid_line p) st))
  /\ (forall (row : dict_row) (rest : list dict_row) (n e raw : string)
             (st : state),
        row !! "name" = Some (Some n) ->
        row !! "email" = Some (Some e) ->
        row !! "preferred_slots" = Some (Some raw) ->
        Py.truthy (Py.strip raw) = true ->
        Forall (fun p => fromisoformat p = None) (split_prefs (Py.strip raw)) ->
        process_row row st
        = (Ok tt, say (no_slot_line (Py.strip n))
                    (warn (split_prefs (Py.strip raw)) st))
        /\ for_rows (row :: rest) st
           = for_rows rest (say (no_slot_line (Py.strip n))
                              (warn (split_prefs (Py.strip raw)) st)))
  /\ (forall (row : dict_row) (rest : list dict_row) (n e : string) (st : state),
        row !! "name" = Some (Some n) ->
        row !! "email" = Some (Some e) ->
        (row !! "preferred_slots" = None
         \/ exists raw, row !! "preferred_slots" = Some (Some raw)
                        /\ Py.strip raw = "") ->
        process_row row st = (Ok tt, say (no_prefs_line (Py.strip n)) st)
        /\ for_rows (row :: rest) st
           = for_rows rest (say (no_prefs_line (Py.strip n)) st))
  /\ (forall (row : dict_row) (rest : list dict_row) (st : state),
        (row !! "name" = None ->
         for_rows (row :: rest) st = (Raise (KeyError "name"), st))
        /\ (row !! "name" = Some None ->
            for_rows (row :: rest) st = (Raise AttributeError, st))
        /\ (forall n : string,
               row !! "name" = Some (Some n) ->
               (row !! "email" = None ->
                for_rows (row :: rest) st = (Raise (KeyError "email"), st))
               /\ (row !! "email" = Some None ->
                   for_rows (row :: rest) st = (Raise AttributeError, st))
               /\ (forall e : string,
                      row !! "email" = Some (Some e) ->
                      row !! "preferred_slots" = Some None ->
                      for_rows (row :: rest) st = (Raise AttributeError, st)))).
Proof.
  split; [|split; [|split]].
  - intros name email p rest st Hp. simpl. rewrite Hp. reflexivity.
  - intros row rest n e raw st Hn He Hraw Ht Hbad.
    assert (H : process_row row st
                = (Ok tt, say (no_slot_line (Py.strip n))
                            (warn (split_prefs (Py.strip raw)) st))).
    { rewrite process_row_first_fit. unfold parse_row, get_default.
      rewrite Hn, He, Hraw, Ht. by rewrite first_fit_all_malformed. }
    split; [exact H|]. simpl. unfold bind. by rewrite H.
  - intros row rest n e st Hn He Hraw.
    assert (H : process_row row st = (Ok tt, say (no_prefs_line (Py.strip n)) st)).
    { rewrite process_row_first_fit. unfold parse_row, get_default.
      rewrite Hn, He. destruct Hraw as [->|(raw & -> & Hblank)]; [done|].
      by rewrite Hblank. }
    split; [exact H|]. simpl. unfold bind. by rewrite H.
  - intros row rest st.
    assert (H : forall e, parse_row row = BadRow e ->
                          for_rows (row :: rest) st = (Raise e, st)).
    { intros e He. simpl. unfold bind. rewrite process_row_first_fit.
      by rewrite He. }
    split; [|split].
    + intros Hn. apply H. unfold parse_row. by rewrite Hn.
    + intros Hn. apply H. unfold parse_row. by rewrite Hn.
    + intros n Hn. split; [|split].
      * intros He. apply H. unfold parse_row. by rewrite Hn, He.
      * intros He. apply H. unfold parse_row. by rewrite Hn, He.
      * intros e He Hp. apply H. unfold parse_row, get_default.
        by rewrite Hn, He, Hp.
Qed.

Lemma malformed_candidates_do_not_abort_witness :
  let row := zip_row intake_header
               ["Ada"; "ada@clinic.example"; "next monday; 01/09/2025 09:00"] ∅ in
  let rest := DictReader
                [intake_header;
                 ["Bo"; "bo@clinic.example"; "01/09/2025 09:00; 2025-09-01 09:00"];
                 ["Cy"; "cy@clinic.example"; ""]] in
  let st := initial None None in
  Py.truthy (Py.strip "next monday; 01/09/2025 09:00") = true
  /\ Forall (fun p => @fromisoformat Civil.runtime p = None)
       (split_prefs (Py.strip "next monday; 01/09/2025 09:00"))
  /\ scheduled (for_rows (RT := Civil.runtime) (row :: rest) st).2
     = [("Bo", "bo@clinic.example", "2025-09-01 09:00",
         "/srv/project_b/out/invite_Bo_20250901T0900.ics")]
  /\ for_rows (RT := Civil.runtime) (row :: rest) st
     = for_rows (RT := Civil.runtime) rest
         (say (no_slot_line (Py.strip "Ada"))
            (warn (split_prefs (Py.strip "next monday; 01/09/2025 09:00")) st)).
Proof.
  intros row rest st.
  assert (H1 : Py.truthy (Py.strip "next monday; 01/09/2025 09:00") = true)
    by (vm_compute; reflexivity).
  assert (H2 : Forall (fun p => @fromisoformat Civil.runtime p = None)
                 (split_prefs (Py.strip "next monday; 01/09/2025 09:00"))).
  { forall_by_computation. }
  split; [exact H1|]. split; [exact H2|].
  split; [vm_compute; reflexivity|].
  exact (proj2 (proj1 (proj2 (malformed_candidates_do_not_abort (RT := Civil.runtime)))
                  row rest "Ada" "ada@clinic.example"
                  "next monday; 01/09/2025 09:00" st
                  eq_refl eq_refl eq_refl H1 H2)).
Defined.

(** C6 as stated fails: a record that lacks its email field makes
    [row['email'].strip()] raise, and the run ends there; the request after
    it, which is valid, is never processed. *)
Lemma short_record_aborts_run :
  let st := initial (Some [intake_header;
                           ["Ada"];
                           ["Bo"; "bo@clinic.example"; "2025-09-01 09:00"]]) None in
  (main (RT := Civil.runtime) st).1 = Raise AttributeError
  /\ stdout (main (RT := Civil.runtime) st).2 = []
  /\ scheduled (main (RT := Civil.runtime) st).2 = []
  /\ existing_csv (main (RT := Civil.runtime) st).2 = None.
Proof. vm_compute. repeat split. Qed.

Section Joining.
Context `{RT : Runtime}.

(** A record with name and email as text and a free, well-formed candidate:
    the body books the first such candidate. *)
Lemma process_row_books (row : dict_row) (n e p : string) (d : datetime)
    (st : state) :
  row !! "name" = Some (Some n) ->
  row !! "email" = Some (Some e) ->
  no_overflow (row_prefs row) ->
  p ∈ row_prefs row ->
  fromisoformat p = Some d ->
  slot_overlaps d (slot_end d) (bookings st) = false ->
  exists (s : datetime) (sk : list string),
    process_row row st
    = (Ok tt, booked_state (Py.strip n) (Py.strip e) s (warn sk st)).
Proof.
  intros Hn He Hov Hin Hp Hfree.
  destruct (first_fit_exists (row_prefs row) (bookings st) p d Hov Hin Hp Hfree)
    as (s & sk & Hf).
  exists s, sk.
  assert (Hrow : parse_row row = Request (Py.strip n) (Py.strip e) (row_prefs row)).
  { unfold parse_row, row_prefs in *. rewrite Hn, He.
    destruct (get_default row "preferred_slots" (Some "")) as [raw|];
      [|by inversion Hin].
    destruct (Py.truthy (Py.strip raw)) eqn:Ht; [done|].
    rewrite (split_prefs_blank _ Ht) in Hin. by inversion Hin. }
  by rewrite process_row_first_fit, Hrow, Hf.
Qed.

(** Whatever is booked while [iv] is in the committed set passed the check
    against [iv]. *)
Lemma checked_against (new : list datetime) (iv : interval) :
  forall bs : list interval,
    iv ∈ bs -> checked bs new ->
    Forall (fun s => slot_overlaps s (slot_end s) [iv] = false) new.
Proof.
  induction new as [|s rest IH]; intros bs Hin Hc; [apply List.Forall_nil|].
  destruct Hc as (_ & Hfree & Hrest). apply List.Forall_cons.
  - rewrite slot_overlaps_false in Hfree. apply slot_overlaps_false.
    intros b Hb. apply list_elem_of_singleton in Hb as ->. by apply Hfree.
  - apply (IH (bs ++ [(s, slot_end s)])); [|done]. apply elem_of_app. by left.
Qed.

End Joining.

(** C7. First come, first served within one run. A request that is
    scheduled (its record has name and email, a well-formed candidate is free,
    and the body of the loop ends normally) adds its interval to the committed
    set at once, whatever that set held: every later request of the run is
    checked against a set that holds it, so every interval booked later
    passed the overlap check against it. Hence, in a run that ends normally
    on two requests whose only candidate is the same slot, from no bookings
    file, the first is booked and the second is reported as having no free
    slot, that one booking being what the committed set, [scheduled] and the
    bookings file hold. *)
Theorem first_come_first_served `{RT : Runtime} :
  (forall (row : dict_row) (rest : list dict_row) (st : state) (n e p : string)
          (d : datetime),
      row !! "name" = Some (Some n) ->
      row !! "email" = Some (Some e) ->
      no_overflow (row_prefs row) ->
      p ∈ row_prefs row ->
      fromisoformat p = Some d ->
      slot_overlaps d (slot_end d) (bookings st) = false ->
      (process_row row st).1 = Ok tt ->
      exists (s : datetime) (later : list interval),
        bookings (process_row row st).2 = bookings st ++ [(s, slot_end s)]
        /\ bookings (for_rows (row :: rest) st).2
           = bookings st ++ [(s, slot_end s)] ++ later
        /\ Forall (fun b => slot_overlaps b.1 b.2 [(s, slot_end s)] = false) later)
  /\ (forall (st : state) (n1 e1 raw1 n2 e2 raw2 p : string) (d : datetime),
        intake_csv st = Some [intake_header; [n1; e1; raw1]; [n2; e2; raw2]] ->
        existing_csv st = None ->
        split_prefs (Py.strip raw1) = [p] ->
        split_prefs (Py.strip raw2) = [p] ->
        fromisoformat p = Some d ->
        in_rangeb d = true ->
        (main st).1 = Ok tt ->
        for_rows (DictReader [intake_header; [n1; e1; raw1]; [n2; e2; raw2]])
          (loop_entry [] st)
        = (Ok tt, say (no_slot_line (Py.strip n2))
                    (booked_state (Py.strip n1) (Py.strip e1) d (loop_entry [] st)))
        /\ bookings (main st).2 = [(d, slot_end d)]
        /\ scheduled (main st).2 = [made_entry (Py.strip n1, Py.strip e1, d)]
        /\ existing_csv (main st).2
           = Some (closed_file [["start"; "end"]; booking_record (d, slot_end d)])).
Proof.
  split.
  - intros row rest st n e p d Hn He Hov Hin Hp Hfree _.
    destruct (process_row_books row n e p d st Hn He Hov Hin Hp Hfree)
      as (s & sk & Heq).
    cbn [for_rows]. unfold bind. rewrite Heq. cbn [fst snd].
    destruct (for_rows_extends rest
                (booked_state (Py.strip n) (Py.strip e) s (warn sk st)))
      as (new & (Hb & _ & _ & _ & _ & Hc) & _).
    exists s, (map made_slot new). split; [reflexivity|].
    split; [rewrite Hb; cbn; by rewrite <- app_assoc|].
    apply (checked_against _ (s, slot_end s)) in Hc;
      [|cbn; apply elem_of_app; right; by left].
    apply Forall_forall. intros b Hb'.
    apply list_elem_of_fmap in Hb' as (m & -> & Hm).
    rewrite Forall_forall in Hc. apply Hc.
    apply list_elem_of_fmap. by exists m.
  - intros st n1 e1 raw1 n2 e2 raw2 p d Hin Hex H1 H2 Hp Hr _.
    assert (Ht : forall raw, split_prefs (Py.strip raw) = [p] ->
                             Py.truthy (Py.strip raw) = true).
    { intros raw Hraw. destruct (Py.truthy (Py.strip raw)) eqn:E; [done|].
      apply split_prefs_blank in E. congruence. }
    assert (Hloop :
      for_rows (DictReader [intake_header; [n1; e1; raw1]; [n2; e2; raw2]])
        (loop_entry [] st)
      = (Ok tt, say (no_slot_line (Py.strip n2))
                  (booked_state (Py.strip n1) (Py.strip e1) d (loop_entry [] st)))).
    { change (DictReader [intake_header; [n1; e1; raw1]; [n2; e2; raw2]])
        with [zip_row intake_header [n1; e1; raw1] ∅;
              zip_row intake_header [n2; e2; raw2] ∅].
      cbn [for_rows]. unfold bind.
      rewrite process_row_first_fit, parse_intake_record, (Ht _ H1), H1.
      cbn [first_fit bookings loop_entry set_scheduled set_bookings].
      rewrite Hp, Hr. cbn [slot_overlaps].
      rewrite process_row_first_fit, parse_intake_record, (Ht _ H2), H2.
      cbn [first_fit]. rewrite Hp, Hr.
      rewrite (slot_overlaps_self d (slot_end d)).
      - by rewrite !warn_nil.
      - apply slot_end_gt.
      - cbn. by left.
    }
    split; [exact Hloop|].
    destruct (main_cases st)
      as [(Hnone & _)|[(e & Hraise & _)|(f & bs & Hf & Hread & Hres & Hs)]].
    + congruence.
    + rewrite (read_no_file st Hex) in Hraise. discriminate.
    + rewrite (read_no_file st Hex) in Hread.
      injection Hread as <-. rewrite Hin in Hf. injection Hf as <-.
      rewrite Hloop in Hs.
      destruct Hs as (_ & He & _ & _ & _ & Hb & Hsch).
      rewrite Hb, Hsch, He. cbn. by rewrite Hex.
Qed.

(** Ada then Bo, both asking for 09:00 only, on an empty ledger. *)
Lemma first_come_first_served_witness :
  let st := initial (Some [intake_header;
                           ["Ada"; "ada@clinic.example"; "2025-09-01 09:00"];
                           ["Bo"; "bo@clinic.example"; "2025-09-01 09:00"]]) None in
  (main (RT := Civil.runtime) st).1 = Ok tt
  /\ bookings (main (RT := Civil.runtime) st).2
     = [(Civil.of_civil 2025 9 1 9 0 0 0, Civil.of_civil 2025 9 1 9 30 0 0)]
  /\ scheduled (main (RT := Civil.runtime) st).2
     = [("Ada", "ada@clinic.example", "2025-09-01 09:00",
         "/srv/project_b/out/invite_Ada_20250901T0900.ics")]
  /\ stdout (main (RT := Civil.runtime) st).2
     = ["Scheduled Ada at 2025-09-01T09:00:00 -> /srv/project_b/out/invite_Ada_20250901T0900.ics";
        "Could not find a free preferred slot for Bo";
        Py.nl +:+ "Summary:";
        "Successfully scheduled 1 appointment(s).";
        "- Ada 2025-09-01 09:00 ( /srv/project_b/out/invite_Ada_20250901T0900.ics )"].
Proof.
  intros st.
  assert (Hok : (main (RT := Civil.runtime) st).1 = Ok tt)
    by (vm_compute; reflexivity).
  destruct (proj2 (first_come_first_served (RT := Civil.runtime)) st
              "Ada" "ada@clinic.example" "2025-09-01 09:00"
              "Bo" "bo@clinic.example" "2025-09-01 09:00"
              "2025-09-01 09:00" (Civil.of_civil 2025 9 1 9 0 0 0)
              eq_refl eq_refl eq_refl eq_refl eq_refl eq_refl Hok)
    as (_ & Hb & Hs & _).
  split; [exact Hok|]. split; [exact Hb|]. split; [exact Hs|].
  vm_compute. reflexivity.
Defined.

(** C10. No validation of the name: a record whose name is blank after
    trimming, whose email is text, and which carries a well-formed candidate
    that does not overlap the committed set, is booked like any other. The
    first free candidate [s] is taken under the empty name: its interval is
    appended to the committed set and to the bookings file, the invite file
    [invite__<start>.ics] is written, and the body ends normally. *)
Theorem blank_name_is_booked `{RT : Runtime} (row : dict_row) (nm em p : string)
    (d : datetime) (st : state) :
  row !! "name" = Some (Some nm) ->
  Py.strip nm = "" ->
  row !! "email" = Some (Some em) ->
  no_overflow (row_prefs row) ->
  p ∈ row_prefs row ->
  fromisoformat p = Some d ->
  slot_overlaps d (slot_end d) (bookings st) = false ->
  exists (s : datetime) (sk : list string),
    process_row row st = (Ok tt, booked_state "" (Py.strip em) s (warn sk st))
    /\ bookings (process_row row st).2 = bookings st ++ [(s, slot_end s)]
    /\ existing_csv (process_row row st).2
       = appended (existing_csv st) (s, slot_end s)
    /\ is_Some (out_dir (process_row row st).2 !! invite_path "" s)
    /\ journal (process_row row st).2
       = journal st ++ [InviteWritten (invite_path "" s);
                        BookingAppended s (slot_end s)].
Proof.
  intros Hn Hblank He Hov Hin Hp Hfree.
  destruct (first_fit_exists (row_prefs row) (bookings st) p d Hov Hin Hp Hfree)
    as (s & sk & Hf).
  exists s, sk.
  assert (Hrow : parse_row row = Request "" (Py.strip em) (row_prefs row)).
  { unfold parse_row, row_prefs in *. rewrite Hn, He, Hblank.
    destruct (get_default row "preferred_slots" (Some "")) as [raw|];
      [|by inversion Hin].
    destruct (Py.truthy (Py.strip raw)) eqn:Ht; [done|].
    rewrite (split_prefs_blank _ Ht) in Hin. by inversion Hin. }
  assert (Heq : process_row row st
                = (Ok tt, booked_state "" (Py.strip em) s (warn sk st))).
  { by rewrite process_row_first_fit, Hrow, Hf. }
  rewrite Heq. split; [done|]. cbn.
  split; [done|]. split; [done|]. split; [|done].
  rewrite lookup_insert_eq. by eexists.
Qed.

Lemma blank_name_is_booked_witness :
  let row := zip_row intake_header
               ["   "; " nobody@clinic.example "; "2025-09-01 09:00"] ∅ in
  let st := initial None None in
  no_overflow (RT := Civil.runtime) (row_prefs row)
  /\ exists s sk,
       process_row (RT := Civil.runtime) row st
       = (Ok tt, booked_state (RT := Civil.runtime) ""
                   "nobody@clinic.example" s (warn sk st))
       /\ invite_path (RT := Civil.runtime) "" (Civil.of_civil 2025 9 1 9 0 0 0)
          = "/srv/project_b/out/invite__20250901T0900.ics".
Proof.
  intros row st.
  assert (Hov : no_overflow (RT := Civil.runtime) (row_prefs row)).
  { apply List.Forall_cons; [vm_compute; done|apply List.Forall_nil]. }
  split; [exact Hov|].
  destruct (blank_name_is_booked (RT := Civil.runtime) row "   "
              " nobody@clinic.example " "2025-09-01 09:00"
              (Civil.of_civil 2025 9 1 9 0 0 0) st
              eq_refl eq_refl eq_refl Hov) as (s & sk & Heq & _).
  - by left.
  - reflexivity.
  - reflexivity.
  - exists s, sk. split; [exact Heq|reflexivity].
Defined.

(** * Further properties of the code *)

(** ** The overlap check *)

(** X1. The check against a committed list made of two parts is the
    disjunction of the checks against the parts. *)
Theorem slot_overlaps_app (s e : datetime) (l1 l2 : list interval) :
  slot_overlaps s e (l1 ++ l2) = slot_overlaps s e l1 || slot_overlaps s e l2.
Proof.
  induction l1 as [|[bstart bend] rest IH]; simpl; [reflexivity|].
  destruct ((s <? bend)%Z && (e >? bstart)%Z); [reflexivity|exact IH].
Qed.

(** X2. The order of the committed intervals does not matter: the early
    return of the loop changes no answer. *)
Theorem slot_overlaps_permutation (s e : datetime) (l1 l2 : list interval) :
  l1 ≡ₚ l2 -> slot_overlaps s e l1 = slot_overlaps s e l2.
Proof.
  induction 1 as [|[b1 b2] l l' _ IH|[b1 b2] [c1 c2] l|l l' l'' _ IH1 _ IH2]; simpl.
  - reflexivity.
  - by rewrite IH.
  - destruct ((s <? c2)%Z && (e >? c1)%Z), ((s <? b2)%Z && (e >? b1)%Z);
      reflexivity.
  - by rewrite IH1.
Qed.

Lemma slot_overlaps_permutation_witness :
  [(sept1 10 0, sept1 11 0); (sept1 13 0, sept1 14 0)]
    ≡ₚ [(sept1 13 0, sept1 14 0); (sept1 10 0, sept1 11 0)]
  /\ slot_overlaps (sept1 13 30) (sept1 14 0)
       [(sept1 10 0, sept1 11 0); (sept1 13 0, sept1 14 0)]
     = slot_overlaps (sept1 13 30) (sept1 14 0)
         [(sept1 13 0, sept1 14 0); (sept1 10 0, sept1 11 0)].
Proof.
  assert (H : [(sept1 10 0, sept1 11 0); (sept1 13 0, sept1 14 0)]
                ≡ₚ [(sept1 13 0, sept1 14 0); (sept1 10 0, sept1 11 0)])
    by apply perm_swap.
  split; [exact H|].
  exact (slot_overlaps_permutation (sept1 13 30) (sept1 14 0) _ _ H).
Defined.

(** X3. An interval conflicts with itself exactly when its end is after its
    start: an empty or inverted interval in the committed set does not block
    its own slot. *)
Theorem slot_overlaps_itself (s e : datetime) :
  slot_overlaps s e [(s, e)] = true <-> (s < e)%Z.
Proof.
  simpl. destruct (s <? e)%Z eqn:H1, (e >? s)%Z eqn:H2; simpl;
    split; intros; try done; lia.
Qed.

(** ** Loading and recording *)

Section LoadFacts.
Context `{RT : Runtime}.

Lemma read_rows_outcomes (rows : list dict_row) :
  forall (acc : list interval) (st : state),
    (exists new, (read_rows rows acc st).1 = Ok (acc ++ new)
                 /\ length new = length rows)
    \/ (exists e, (read_rows rows acc st).1 = Raise e
                  /\ e ∈ [KeyError "start"; KeyError "end"; TypeError; ValueError]).
Proof.
  induction rows as [|r rest IH]; intros acc st; simpl.
  - left. exists []. by rewrite app_nil_r.
  - unfold bind, getitem, parse_cell.
    destruct (r !! "start") as [[vs|]|]; simpl;
      [|right; eexists; split; [done|set_solver]
       |right; eexists; split; [done|set_solver]].
    destruct (fromisoformat vs) as [s|]; simpl;
      [|right; eexists; split; [done|set_solver]].
    destruct (r !! "end") as [[ve|]|]; simpl;
      [|right; eexists; split; [done|set_solver]
       |right; eexists; split; [done|set_solver]].
    destruct (fromisoformat ve) as [e|]; simpl;
      [|right; eexists; split; [done|set_solver]].
    destruct (IH (acc ++ [(s, e)]) st) as [(new & Hnew & Hlen)|Hraise]; [|by right].
    left. exists ((s, e) :: new). rewrite Hnew, <- app_assoc. simpl.
    split; [done|]. by rewrite Hlen.
Qed.

Lemma fold_appended_some (ivs : list interval) :
  forall records : csv_file,
    fold_left appended ivs (Some (closed_file records))
    = Some (closed_file (records ++ map booking_record ivs)).
Proof.
  induction ivs as [|iv rest IH]; intros records; simpl.
  - by rewrite app_nil_r.
  - unfold write_row. cbn [unterminated closed_file file_records].
    fold (closed_file (records ++ [booking_record iv])).
    rewrite IH, <- app_assoc. reflexivity.
Qed.

Lemma fold_appended_none (iv : interval) (ivs : list interval) :
  fold_left appended (iv :: ivs) None
  = Some (closed_file (["start"; "end"] :: map booking_record (iv :: ivs))).
Proof. simpl. by rewrite fold_appended_some. Qed.

Lemma closed_file_eq (f : bookings_file) :
  unterminated f = false -> f = closed_file (file_records f).
Proof. destruct f as [records u]. simpl. by intros ->. Qed.

End LoadFacts.

(** X4. Loading changes nothing, and it either returns one interval per
    data row of the bookings file (blank lines apart) or raises one of four
    exceptions: KeyError for a missing start or end column, TypeError for a row
    too short to have the cell, ValueError for a malformed timestamp. It never
    returns a part of the file. *)
Theorem load_outcomes `{RT : Runtime} (st : state) :
  (read_existing_bookings st).2 = st
  /\ ((exists bs, (read_existing_bookings st).1 = Ok bs
                  /\ length bs = committed_count st)
      \/ (exists e, (read_existing_bookings st).1 = Raise e
                    /\ e ∈ [KeyError "start"; KeyError "end"; TypeError; ValueError])).
Proof.
  split; [apply read_existing_bookings_state|].
  unfold read_existing_bookings, committed_count, bind, gets.
  destruct (existing_csv st) as [f|]; simpl.
  - destruct (read_rows_outcomes (DictReader (file_records f)) [] st)
      as [(new & H & Hlen)|H]; [left; by exists new|by right].
  - left. by exists [].
Qed.

(** X5. A bookings file that cannot be loaded stops the run before any
    request is looked at: [main] raises the exception of the load and leaves
    every file and the console as they were. *)
Theorem failed_load_stops_the_run `{RT : Runtime} (st : state) (f : csv_file)
    (e : exn) :
  intake_csv st = Some f ->
  (read_existing_bookings st).1 = Raise e ->
  main st = (Raise e, st).
Proof.
  intros Hin Hread. rewrite main_unfold, Hin.
  pose proof (read_existing_bookings_state st) as Hst.
  destruct (read_existing_bookings st) as [[bs|e'] st1]; simpl in *; congruence.
Qed.

(** A bookings file with the column names of the module docstring. *)
Lemma failed_load_stops_the_run_witness :
  let st := initial
              (Some [intake_header;
                     ["Ada"; "ada@clinic.example"; "2025-09-01 09:00"]])
              (Some (closed_file
                       [["start_iso"; "end_iso"];
                        ["2025-09-01T10:00:00"; "2025-09-01T11:00:00"]])) in
  (read_existing_bookings (RT := Civil.runtime) st).1 = Raise (KeyError "start")
  /\ main (RT := Civil.runtime) st = (Raise (KeyError "start"), st).
Proof.
  intros st.
  assert (H : (read_existing_bookings (RT := Civil.runtime) st).1
              = Raise (KeyError "start")) by reflexivity.
  split; [exact H|].
  exact (failed_load_stops_the_run (RT := Civil.runtime) st _ _ eq_refl H).
Defined.

(** X6. Recording a sequence of intervals, on a bookings file that is
    absent or whose last line ends with its line break, writes the header
    once, and only into a file that did not exist: an existing file gets the
    records after its last one, a missing file becomes the header followed by
    the records, and nothing is created when there is nothing to record. *)
Theorem record_all_file `{RT : Runtime} (ivs : list interval) (st : state) :
  (forall f, existing_csv st = Some f -> unterminated f = false) ->
  existing_csv (record_all ivs st)
  = match existing_csv st, ivs with
    | Some f, _ => Some (closed_file (file_records f ++ map booking_record ivs))
    | None, [] => None
    | None, _ :: _ =>
        Some (closed_file (["start"; "end"] :: map booking_record ivs))
    end.
Proof.
  intros Hclosed. rewrite record_all_existing.
  destruct (existing_csv st) as [f|].
  - rewrite (closed_file_eq f (Hclosed f eq_refl)) at 1.
    apply fold_appended_some.
  - destruct ivs as [|iv rest]; [reflexivity|apply fold_appended_none].
Qed.

Lemma record_all_file_witness :
  let st := initial None
              (Some (closed_file
                       [["start"; "end"];
                        ["2025-09-01T10:00:00"; "2025-09-01T11:00:00"]])) in
  (forall f, existing_csv st = Some f -> unterminated f = false)
  /\ existing_csv
       (record_all (RT := Civil.runtime) [(sept1 12 0, sept1 12 30)] st)
     = Some (closed_file
               [["start"; "end"];
                ["2025-09-01T10:00:00"; "2025-09-01T11:00:00"];
                ["2025-09-01T12:00:00"; "2025-09-01T12:30:00"]]).
Proof.
  intros st.
  assert (H : forall f, existing_csv st = Some f -> unterminated f = false).
  { intros f [= <-]. reflexivity. }
  split; [exact H|].
  rewrite (record_all_file (RT := Civil.runtime) _ st H). reflexivity.
Defined.

(** X7. The bookings file is append-only across a run: whatever the input,
    and however the run ends, a file that existed before the run with a line
    break at the end of its last line keeps its records as a prefix of the
    records after the run, and every record added has the two fields start
    and end. *)
Theorem main_appends_only `{RT : Runtime} (st : state) (f : bookings_file) :
  existing_csv st = Some f ->
  unterminated f = false ->
  exists added : csv_file,
    existing_csv (main st).2 = Some (closed_file (file_records f ++ added))
    /\ Forall (fun r => length r = 2%nat) added.
Proof.
  intros Hex Hclosed. rewrite (closed_file_eq f Hclosed) in Hex.
  destruct (main_cases st)
    as [(_ & _ & Hs)|[(e & _ & Hm)|(f1 & bs & _ & _ & _ & Hs)]].
  - exists []. destruct Hs as (_ & -> & _). by rewrite app_nil_r.
  - exists []. rewrite Hm. simpl. by rewrite app_nil_r.
  - destruct (for_rows_extends (DictReader f1) (loop_entry bs st))
      as (new & (_ & _ & He & _) & _).
    destruct Hs as (_ & -> & _). rewrite He. simpl. rewrite Hex.
    exists (map booking_record (map made_slot new)).
    split; [apply fold_appended_some|].
    apply Forall_forall. intros r Hr.
    apply list_elem_of_fmap in Hr as (iv & -> & _). reflexivity.
Qed.

Lemma main_appends_only_witness :
  let old := [["start"; "end"]; ["2025-09-01T10:00:00"; "2025-09-01T11:00:00"]] in
  let st := initial
              (Some [intake_header;
                     ["Ada"; "ada@clinic.example"; "2025-09-01 10:30;2025-09-01 11:00"]])
              (Some (closed_file old)) in
  existing_csv (main (RT := Civil.runtime) st).2
  = Some (closed_file
            (old ++ [["2025-09-01T11:00:00"; "2025-09-01T11:30:00"]]))
  /\ exists added : csv_file,
       existing_csv (main (RT := Civil.runtime) st).2
       = Some (closed_file (old ++ added))
       /\ Forall (fun r => length r = 2%nat) added.
Proof.
  intros old st. split; [vm_compute; reflexivity|].
  exact (main_appends_only (RT := Civil.runtime) st (closed_file old)
           eq_refl eq_refl).
Defined.

(** ** The loop over the requests *)

Section LoopFacts.
Context `{RT : Runtime}.
Local Open Scope Z_scope.

Lemma checked_in_range (new : list datetime) :
  forall bs : list interval,
    checked bs new -> Forall (fun s => in_rangeb s = true) new.
Proof.
  induction new as [|s rest IH]; intros bs Hc; [apply List.Forall_nil|].
  destruct Hc as (Hr & _ & Hrest). apply List.Forall_cons; [done|by eapply IH].
Qed.

(** One request: at most one booking. *)
Lemma process_row_extends_one (row : dict_row) (st : state) :
  exists new : list made,
    extends_by st (process_row row st).2 new /\ (length new <= 1)%nat.
Proof.
  rewrite process_row_first_fit.
  destruct (parse_row row) as [name email prefs|name|e].
  - destruct (first_fit prefs (bookings st)) as [sk [s| |]] eqn:Hf.
    + apply first_fit_pick_inv in Hf as (Hr & Hfree & _).
      exists [(name, email, s)]. split; [by apply extends_by_booked|done].
    + exists []. split; [by apply extends_by_refl|simpl; lia].
    + exists []. split; [by apply extends_by_refl|simpl; lia].
  - exists []. split; [by apply extends_by_refl|simpl; lia].
  - exists []. split; [by apply extends_by_refl|simpl; lia].
Qed.

Lemma for_rows_extends_le (rows : list dict_row) :
  forall st : state,
  exists new : list made,
    extends_by st (for_rows rows st).2 new /\ (length new <= length rows)%nat.
Proof.
  induction rows as [|row rest IH]; intros st.
  - exists []. split; [by apply extends_by_refl|done].
  - destruct (process_row_extends_one row st) as (n1 & H1 & Hl1).
    simpl. unfold bind. destruct (process_row row st) as [[[]|e] st1]; simpl in *.
    + destruct (IH st1) as (n2 & H2 & Hl2).
      exists (n1 ++ n2). split; [by eapply extends_by_trans|].
      rewrite length_app. lia.
    + exists n1. split; [done|lia].
Qed.

(** The decision of the loop does not look at malformed candidates. *)
Lemma first_fit_well_formed (prefs : list string) (bs : list interval) :
  (first_fit (filter (fun p => is_malformed p = false) prefs) bs).2
  = (first_fit prefs bs).2.
Proof.
  induction prefs as [|p rest IH]; [reflexivity|].
  rewrite filter_cons. case_decide as Hm; unfold is_malformed in Hm; simpl.
  - destruct (fromisoformat p) as [s|] eqn:Hp; [|done].
    destruct (in_rangeb s); [|reflexivity].
    destruct (slot_overlaps s (slot_end s) bs); [exact IH|reflexivity].
  - destruct (fromisoformat p) as [s|] eqn:Hp; [done|].
    rewrite IH. by destruct (first_fit rest bs).
Qed.

End LoopFacts.

(** Requests are processed strictly in order, and an exception ends the
    loop: the loop on a list followed by another is the loop on the first and
    then, if that ended normally, on the second from the state reached. *)
Lemma for_rows_seq `{RT : Runtime} (rows1 rows2 : list dict_row) (st : state) :
  for_rows (rows1 ++ rows2) st
  = match for_rows rows1 st with
    | (Ok _, st1) => for_rows rows2 st1
    | (Raise e, st1) => (Raise e, st1)
    end.
Proof.
  revert st. induction rows1 as [|row rest IH]; intros st; [reflexivity|].
  simpl. unfold bind. destruct (process_row row st) as [[[]|e] st1]; [apply IH|done].
Qed.

(** X9. At most one booking per request: over any list of requests, the
    committed set and [scheduled] grow by the same number of entries, and by
    no more than the number of requests. *)
Theorem at_most_one_booking_per_request `{RT : Runtime} (rows : list dict_row)
    (st : state) :
  exists n : nat,
    (n <= length rows)%nat
    /\ length (bookings (for_rows rows st).2) = (length (bookings st) + n)%nat
    /\ length (scheduled (for_rows rows st).2) = (length (scheduled st) + n)%nat.
Proof.
  destruct (for_rows_extends_le rows st) as (new & (Hb & _ & _ & Hs & _) & Hl).
  exists (length new). split; [done|].
  rewrite Hb, Hs, !length_app, !length_map. done.
Qed.

(** X10. The loop books nothing that was not asked for: every interval of
    the committed set after the loop was there before it, or starts at the
    time that one of the candidates of the input denotes, lasts
    DURATION_MINUTES (30 minutes), and ends within the datetime range. *)
Theorem booked_slots_are_candidates `{RT : Runtime} (rows : list dict_row)
    (st : state) (iv : interval) :
  iv ∈ bookings (for_rows rows st).2 ->
  iv ∈ bookings st
  \/ exists d : datetime,
       d ∈ row_slots rows
       /\ iv = (d, (d + 30 * 60000000)%Z)
       /\ (0 <= d + 30 * 60000000 <= datetime_max)%Z.
Proof.
  intros Hin.
  destruct (for_rows_extends rows st) as (new & (Hb & _ & _ & _ & _ & Hc) & Hslots).
  rewrite Hb in Hin. apply elem_of_app in Hin as [Hin|Hin]; [by left|right].
  apply list_elem_of_fmap in Hin as (b & -> & Hb').
  exists b.2. rewrite Forall_forall in Hslots. split; [by apply Hslots|].
  split; [reflexivity|].
  apply checked_in_range in Hc. rewrite Forall_forall in Hc.
  assert (Hr : in_rangeb b.2 = true).
  { apply Hc. apply list_elem_of_fmap. by exists b. }
  unfold in_rangeb, slot_end, timedelta_minutes, DURATION_MINUTES in Hr.
  apply andb_true_iff in Hr as [H1 H2]. lia.
Qed.

Lemma booked_slots_are_candidates_witness :
  let rows := DictReader
                [intake_header;
                 ["Ada"; "ada@clinic.example"; "someday; 2025-09-01 10:30 ;2025-09-01 12:00"]] in
  let st := set_bookings [(sept1 10 0, sept1 11 0)] (initial None None) in
  (sept1 12 0, sept1 12 30) ∈ bookings (for_rows (RT := Civil.runtime) rows st).2
  /\ ((sept1 12 0, sept1 12 30) ∈ bookings st
      \/ exists d : datetime,
           d ∈ row_slots (RT := Civil.runtime) rows
           /\ (sept1 12 0, sept1 12 30) = (d, (d + 30 * 60000000)%Z)
           /\ (0 <= d + 30 * 60000000 <= datetime_max)%Z).
Proof.
  intros rows st.
  assert (H : (sept1 12 0, sept1 12 30)
              ∈ bookings (for_rows (RT := Civil.runtime) rows st).2).
  { vm_compute. right. left. }
  split; [exact H|].
  exact (booked_slots_are_candidates (RT := Civil.runtime) rows st _ H).
Defined.

(** X12. Who asks does not change what is booked: for the same candidates
    and the same committed set, when the loop over the candidates ends without
    raising for one requester and for another, it has taken the same decision,
    booked the same interval and written the same record to the bookings
    file, whatever the two names and emails. *)
Theorem selection_ignores_identity `{RT : Runtime}
    (name email name' email' : string) (prefs : list string) (st : state)
    (booked booked' : bool) :
  (try_prefs name email prefs st).1 = Ok booked ->
  (try_prefs name' email' prefs st).1 = Ok booked' ->
  booked = booked'
  /\ bookings (try_prefs name email prefs st).2
     = bookings (try_prefs name' email' prefs st).2
  /\ existing_csv (try_prefs name email prefs st).2
     = existing_csv (try_prefs name' email' prefs st).2.
Proof.
  rewrite !try_prefs_first_fit.
  destruct (first_fit prefs (bookings st)) as [sk [s| |]]; simpl;
    intros H1 H2; [split; [congruence|done]..|discriminate].
Qed.

Lemma selection_ignores_identity_witness :
  let prefs := ["2025-09-01 10:30"; "2025-09-01 12:00"] in
  let st := set_bookings [(sept1 10 0, sept1 11 0)] (initial None None) in
  (try_prefs (RT := Civil.runtime) "Ada" "ada@clinic.example" prefs st).1 = Ok true
  /\ (try_prefs (RT := Civil.runtime) "Bo" "bo@clinic.example" prefs st).1 = Ok true
  /\ bookings (try_prefs (RT := Civil.runtime) "Ada" "ada@clinic.example" prefs st).2
     = [(sept1 10 0, sept1 11 0); (sept1 12 0, sept1 12 30)]
  /\ bookings (try_prefs (RT := Civil.runtime) "Ada" "ada@clinic.example" prefs st).2
     = bookings (try_prefs (RT := Civil.runtime) "Bo" "bo@clinic.example" prefs st).2.
Proof.
  intros prefs st.
  assert (H1 : (try_prefs (RT := Civil.runtime) "Ada" "ada@clinic.example" prefs st).1
               = Ok true) by (vm_compute; reflexivity).
  assert (H2 : (try_prefs (RT := Civil.runtime) "Bo" "bo@clinic.example" prefs st).1
               = Ok true) by (vm_compute; reflexivity).
  split; [exact H1|]. split; [exact H2|]. split; [vm_compute; reflexivity|].
  exact (proj1 (proj2 (selection_ignores_identity (RT := Civil.runtime)
                         "Ada" "ada@clinic.example" "Bo" "bo@clinic.example"
                         prefs st true true H1 H2))).
Defined.

(** X13. Malformed candidates change nothing but the console: the loop over
    the candidates ends the same way, and leaves the same files, committed set
    and [scheduled], as on the list with the malformed candidates removed. *)
Theorem malformed_candidates_are_ignored `{RT : Runtime} (name email : string)
    (prefs : list string) (st : state) :
  (try_prefs name email (filter (fun p => is_malformed p = false) prefs) st).1
  = (try_prefs name email prefs st).1
  /\ same_files (try_prefs name email prefs st).2
       (try_prefs name email (filter (fun p => is_malformed p = false) prefs) st).2.
Proof.
  rewrite !try_prefs_first_fit.
  pose proof (first_fit_well_formed prefs (bookings st)) as H.
  destruct (first_fit (filter _ prefs) (bookings st)) as [sk1 d1].
  destruct (first_fit prefs (bookings st)) as [sk2 d2].
  simpl in H. subst d2. destruct d1 as [s| |]; simpl; by repeat split.
Qed.

(** ** The whole run *)

Section RunFacts.
Context `{RT : Runtime}.

Lemma print_scheduled_eq (l : list scheduled_entry) :
  forall st : state,
    print_scheduled l st
    = (Ok tt, set_stdout (stdout st ++ map summary_entry_line l) st).
Proof.
  induction l as [|[[[name email] start_text] file] rest IH]; intros st; simpl.
  - destruct st. unfold ret, set_stdout. simpl. by rewrite app_nil_r.
  - unfold bind, print, modify. rewrite IH. unfold set_stdout. simpl.
    by rewrite <- app_assoc.
Qed.

Lemma filter_booking_records (ivs : list interval) :
  filter (fun r => is_blank_record r = false) (map booking_record ivs)
  = map booking_record ivs.
Proof.
  induction ivs as [|iv rest IH]; [reflexivity|].
  simpl. rewrite filter_cons_True by done. by rewrite IH.
Qed.

Lemma DictReader_records (header : list string) (records : csv_file)
    (ivs : list interval) :
  length (DictReader (header :: records ++ map booking_record ivs))
  = (length (DictReader (header :: records)) + length ivs)%nat.
Proof.
  unfold DictReader.
  rewrite filter_app, filter_booking_records, map_app, length_app, !length_map.
  reflexivity.
Qed.

(** The bookings file holds one more row per interval recorded. *)
Lemma committed_count_fold (ivs : list interval) (file : option bookings_file) :
  store_headed file ->
  match fold_left appended ivs file with
  | None => 0%nat
  | Some f => length (DictReader (file_records f))
  end
  = (match file with
     | None => 0%nat
     | Some f => length (DictReader (file_records f))
     end + length ivs)%nat.
Proof.
  intros [->|[records ->]].
  - destruct ivs as [|iv rest]; [reflexivity|].
    rewrite fold_appended_none. cbn [file_records closed_file].
    change (["start"; "end"] :: map booking_record (iv :: rest))
      with (["start"; "end"] :: [] ++ map booking_record (iv :: rest)).
    by rewrite DictReader_records.
  - rewrite fold_appended_some. cbn [file_records closed_file].
    change ((["start"; "end"] :: records) ++ map booking_record ivs)
      with (["start"; "end"] :: records ++ map booking_record ivs).
    by rewrite DictReader_records.
Qed.

Lemma invites_exist_same_files (st st' : state) :
  same_files st st' -> invites_exist st -> invites_exist st'.
Proof.
  intros (_ & _ & Ho & _ & _ & _ & Hs) H entry. rewrite Hs, Ho. apply H.
Qed.

Lemma invites_exist_booked (name email : string) (s : datetime) (st : state) :
  invites_exist st -> invites_exist (booked_state name email s st).
Proof.
  intros H entry Hin. simpl in *.
  apply elem_of_app in Hin as [Hin|Hin].
  - apply lookup_insert_is_Some'. right. by apply H.
  - apply list_elem_of_singleton in Hin as ->. simpl.
    apply lookup_insert_is_Some'. by left.
Qed.

Lemma process_row_invites (row : dict_row) (st : state) :
  invites_exist st -> invites_exist (process_row row st).2.
Proof.
  intros H. rewrite process_row_first_fit.
  destruct (parse_row row) as [name email prefs|name|e]; simpl.
  - destruct (first_fit prefs (bookings st)) as [sk [s| |]]; simpl.
    + apply invites_exist_booked.
      by eapply invites_exist_same_files; [apply same_files_warn|].
    + eapply invites_exist_same_files; [|exact H].
      eapply same_files_trans; [apply same_files_warn|apply same_files_say].
    + by eapply invites_exist_same_files; [apply same_files_warn|].
  - by eapply invites_exist_same_files; [apply same_files_say|].
  - done.
Qed.

Lemma for_rows_invites (rows : list dict_row) :
  forall st : state, invites_exist st -> invites_exist (for_rows rows st).2.
Proof.
  induction rows as [|row rest IH]; intros st H; [done|].
  simpl. unfold bind.
  pose proof (process_row_invites row st H) as H1.
  destruct (process_row row st) as [[[]|e] st1]; simpl in *; [by apply IH|done].
Qed.

(** Files of the output directory are overwritten at most, never removed. *)
Lemma process_row_keeps_files (row : dict_row) (st : state) (path : string) :
  is_Some (out_dir st !! path) -> is_Some (out_dir (process_row row st).2 !! path).
Proof.
  intros H. rewrite process_row_first_fit.
  destruct (parse_row row) as [name email prefs|name|e]; simpl; try done.
  destruct (first_fit prefs (bookings st)) as [sk [s| |]]; simpl; try done.
  apply lookup_insert_is_Some'. by right.
Qed.

Lemma for_rows_keeps_files (rows : list dict_row) (path : string) :
  forall st : state,
    is_Some (out_dir st !! path) -> is_Some (out_dir (for_rows rows st).2 !! path).
Proof.
  induction rows as [|row rest IH]; intros st H; [done|].
  simpl. unfold bind.
  pose proof (process_row_keeps_files row st path H) as H1.
  destruct (process_row row st) as [[[]|e] st1]; simpl in *; [by apply IH|done].
Qed.

End RunFacts.

(** X14. The summary of a run that ends normally: the last lines of the
    console are the heading, the count line with the number of entries of
    [scheduled], and one line per entry, in the order the bookings were made. *)
Theorem summary_lists_the_bookings `{RT : Runtime} (st : state) :
  (main st).1 = Ok tt ->
  exists before : list string,
    stdout (main st).2
    = before
      ++ [Py.nl +:+ "Summary:";
          "Successfully scheduled "
            +:+ pretty (length (scheduled (main st).2)) +:+ " appointment(s)."]
      ++ map summary_entry_line (scheduled (main st).2).
Proof.
  rewrite main_unfold.
  destruct (intake_csv st) as [f|]; [|discriminate].
  destruct (read_existing_bookings st) as [[bs|e] st1]; [|discriminate].
  destruct (for_rows (DictReader f) (loop_entry bs st1)) as [[[]|e] st2];
    [|discriminate].
  rewrite print_scheduled_eq. intros _. exists (stdout st2). simpl.
  rewrite <- !app_assoc. reflexivity.
Qed.

Lemma summary_lists_the_bookings_witness :
  let st := initial (Some [intake_header;
                           ["Ada"; "ada@clinic.example"; "2025-09-01 09:00"];
                           ["Bo"; "bo@clinic.example"; "2025-09-01 09:15"];
                           ["Cy"; "cy@clinic.example"; "2025-09-01 09:30"]]) None in
  (main (RT := Civil.runtime) st).1 = Ok tt
  /\ length (scheduled (main (RT := Civil.runtime) st).2) = 2%nat
  /\ exists before : list string,
       stdout (main (RT := Civil.runtime) st).2
       = before
         ++ [Py.nl +:+ "Summary:";
             "Successfully scheduled "
               +:+ pretty (length (scheduled (main (RT := Civil.runtime) st).2))
               +:+ " appointment(s)."]
         ++ map summary_entry_line (scheduled (main (RT := Civil.runtime) st).2).
Proof.
  intros st.
  assert (H : (main (RT := Civil.runtime) st).1 = Ok tt) by (vm_compute; reflexivity).
  split; [exact H|]. split; [vm_compute; reflexivity|].
  exact (summary_lists_the_bookings (RT := Civil.runtime) st H).
Defined.

(** X15. One scheduled appointment, one ledger row: on a bookings file that
    is absent, or begins with the header and ends with a line break, a run
    that ends normally leaves the file with exactly as many more rows as
    [scheduled] has entries, the number that the summary prints. *)
Theorem scheduled_count_is_file_growth `{RT : Runtime} (st : state) :
  store_headed (existing_csv st) ->
  (main st).1 = Ok tt ->
  committed_count (main st).2
  = (committed_count st + length (scheduled (main st).2))%nat.
Proof.
  intros Hh Hok.
  destruct (main_cases st)
    as [(_ & Hexit & _)|[(e & _ & Hm)|(f & bs & _ & _ & _ & Hs)]].
  - rewrite Hexit in Hok. discriminate.
  - rewrite Hm in Hok. discriminate.
  - destruct (for_rows_extends (DictReader f) (loop_entry bs st))
      as (new & (_ & _ & He & Hsch & _) & _).
    destruct Hs as (_ & He' & _ & _ & _ & _ & Hsch').
    unfold committed_count. rewrite He', Hsch', He, Hsch. simpl.
    rewrite (committed_count_fold _ _ Hh), !length_map. reflexivity.
Qed.

Lemma scheduled_count_is_file_growth_witness :
  let st := initial
              (Some [intake_header;
                     ["Ada"; "ada@clinic.example"; "2025-09-01 10:30;2025-09-01 11:00"];
                     ["Bo"; "bo@clinic.example"; "2025-09-01 10:00"];
                     ["Cy"; "cy@clinic.example"; "2025-09-01 12:00"]])
              (Some (closed_file
                       [["start"; "end"];
                        ["2025-09-01T10:00:00"; "2025-09-01T11:00:00"]])) in
  store_headed (existing_csv st)
  /\ (main (RT := Civil.runtime) st).1 = Ok tt
  /\ committed_count st = 1%nat
  /\ committed_count (main (RT := Civil.runtime) st).2
     = (committed_count st + length (scheduled (main (RT := Civil.runtime) st).2))%nat.
Proof.
  intros st.
  assert (H1 : store_headed (existing_csv st)) by (right; by eexists).
  assert (H2 : (main (RT := Civil.runtime) st).1 = Ok tt) by (vm_compute; reflexivity).
  split; [exact H1|]. split; [exact H2|]. split; [reflexivity|].
  exact (scheduled_count_is_file_growth (RT := Civil.runtime) st H1 H2).
Defined.

(** X16. Every invite that the summary names exists: after a run that ends
    normally, the path of each entry of [scheduled] is a file of the output
    directory. *)
Theorem scheduled_invites_exist `{RT : Runtime} (st : state) :
  (main st).1 = Ok tt -> invites_exist (main st).2.
Proof.
  intros Hok.
  destruct (main_cases st)
    as [(_ & Hexit & _)|[(e & _ & Hm)|(f & bs & _ & _ & _ & Hs)]].
  - rewrite Hexit in Hok. discriminate.
  - rewrite Hm in Hok. discriminate.
  - eapply invites_exist_same_files; [exact Hs|].
    apply for_rows_invites. intros entry Hin. by inversion Hin.
Qed.

Lemma scheduled_invites_exist_witness :
  let st := initial (Some [intake_header;
                           ["Ada Lovelace"; "ada@clinic.example"; "2025-09-01 09:00"]])
              None in
  (main (RT := Civil.runtime) st).1 = Ok tt
  /\ scheduled (main (RT := Civil.runtime) st).2
     = [("Ada Lovelace", "ada@clinic.example", "2025-09-01 09:00",
         "/srv/project_b/out/invite_Ada_Lovelace_20250901T0900.ics")]
  /\ invites_exist (main (RT := Civil.runtime) st).2.
Proof.
  intros st.
  assert (H : (main (RT := Civil.runtime) st).1 = Ok tt) by (vm_compute; reflexivity).
  split; [exact H|]. split; [vm_compute; reflexivity|].
  exact (scheduled_invites_exist (RT := Civil.runtime) st H).
Defined.

(** X17. What a run never does: it never changes the intake file, and it
    never removes a file of the output directory (an invite can be
    overwritten, not deleted), however the run ends. *)
Theorem main_keeps_its_inputs `{RT : Runtime} (st : state) :
  intake_csv (main st).2 = intake_csv st
  /\ forall path : string,
       is_Some (out_dir st !! path) -> is_Some (out_dir (main st).2 !! path).
Proof.
  destruct (main_cases st)
    as [(_ & _ & Hs)|[(e & _ & Hm)|(f & bs & _ & _ & _ & Hs)]].
  - destruct Hs as (Hi & _ & Ho & _). by rewrite Hi, Ho.
  - by rewrite Hm.
  - destruct Hs as (Hi & _ & Ho & _). rewrite Hi, Ho.
    destruct (for_rows_extends (DictReader f) (loop_entry bs st))
      as (new & (_ & _ & _ & _ & Hi' & _) & _).
    split; [exact Hi'|].
    intros path H. by apply for_rows_keeps_files.
Qed.

(** ** The ledger on disk, from run to run *)

Section DiskFacts.
Context `{RT : Runtime}.

(** The loop started from the loaded list [bs]: what the next load returns. *)
Lemma loop_then_load (rows : list dict_row) (bs : list interval) (st : state) :
  store_headed (existing_csv st) ->
  (read_existing_bookings st).1 = Ok bs ->
  Forall (fun d => reads_back d /\ reads_back (slot_end d)) (row_slots rows) ->
  (read_existing_bookings (for_rows rows (loop_entry bs st)).2).1
  = Ok (bookings (for_rows rows (loop_entry bs st)).2)
  /\ (no_overlap bs -> no_overlap (bookings (for_rows rows (loop_entry bs st)).2))
  /\ bs `prefix_of` bookings (for_rows rows (loop_entry bs st)).2.
Proof.
  intros Hh Hread Hrb.
  destruct (for_rows_extends rows (loop_entry bs st))
    as (new & (Hb & _ & He & _ & _ & Hc) & Hnew).
  simpl in Hb, He, Hc. rewrite Hb. split; [|split].
  - apply (read_fold_appended (map made_slot new) st); try done.
    apply Forall_forall. intros iv Hiv.
    apply list_elem_of_fmap in Hiv as (b & -> & Hb').
    rewrite Forall_forall in Hnew. specialize (Hnew b Hb').
    rewrite Forall_forall in Hrb. by apply Hrb.
  - intros Hno. rewrite made_slot_map. by apply no_overlap_checked.
  - by eexists.
Qed.

(** The loop looks at the ledger only: from two states with the same ledger
    it ends the same way, with the same ledger. *)
Lemma process_row_same_ledger (row : dict_row) (a b : state) :
  same_ledger a b ->
  (process_row row b).1 = (process_row row a).1
  /\ same_ledger (process_row row a).2 (process_row row b).2.
Proof.
  intros (He & Hj & Hb & Ho). rewrite !process_row_first_fit.
  destruct (parse_row row) as [name email prefs|name|e]; simpl.
  - rewrite Hb. destruct (first_fit prefs (bookings a)) as [sk [s| |]]; simpl.
    + split; [done|]. unfold same_ledger. simpl.
      by rewrite He, Hj, Hb, !dom_insert_L, Ho.
    + split; [done|]. by repeat split.
    + split; [done|]. by repeat split.
  - split; [done|]. by repeat split.
  - split; [done|]. by repeat split.
Qed.

Lemma for_rows_same_ledger (rows : list dict_row) :
  forall a b : state,
    same_ledger a b ->
    (for_rows rows b).1 = (for_rows rows a).1
    /\ same_ledger (for_rows rows a).2 (for_rows rows b).2.
Proof.
  induction rows as [|row rest IH]; intros a b Hab; [done|].
  simpl. unfold bind.
  destruct (process_row_same_ledger row a b Hab) as [Hres Hsame].
  destruct (process_row row a) as [ra a1], (process_row row b) as [rb b1].
  simpl in *. subst rb. destruct ra as [[]|e]; [by apply IH|done].
Qed.

Lemma same_files_ledger (a b : state) : same_files a b -> same_ledger a b.
Proof.
  intros (_ & He & Ho & _ & Hj & Hb & _). unfold same_ledger.
  by rewrite He, Ho, Hj, Hb.
Qed.

Lemma same_ledger_trans (a b c : state) :
  same_ledger a b -> same_ledger b c -> same_ledger a c.
Proof. unfold same_ledger. intuition congruence. Qed.

Lemma same_ledger_sym (a b : state) : same_ledger a b -> same_ledger b a.
Proof. unfold same_ledger. intuition congruence. Qed.

Lemma DictReader_app (header : list string) (r1 r2 : csv_file) :
  DictReader (header :: r1 ++ r2)
  = DictReader (header :: r1) ++ DictReader (header :: r2).
Proof. unfold DictReader. by rewrite filter_app, map_app. Qed.

End DiskFacts.



(** X8. Splitting the intake gives the same ledger: when a run on the first
    part of the requests ends normally (on a bookings file that is absent, or
    begins with the header and ends with a line break, the times of the
    candidates being read back from the texts written for them), a second run
    on the rest of the requests
    ends as one run on all the requests would, with the same bookings file,
    the same journal of durable writes, the same committed set and invites at
    the same paths. *)
Theorem two_runs_as_one `{RT : Runtime} (st : state) (header : list string)
    (recsA recsB : csv_file) :
  store_headed (existing_csv st) ->
  Forall (fun d => reads_back d /\ reads_back (slot_end d))
    (row_slots (DictReader (header :: recsA))) ->
  (main (set_intake_csv (Some (header :: recsA)) st)).1 = Ok tt ->
  (main (set_intake_csv (Some (header :: recsB))
           (main (set_intake_csv (Some (header :: recsA)) st)).2)).1
  = (main (set_intake_csv (Some (header :: recsA ++ recsB)) st)).1
  /\ same_ledger
       (main (set_intake_csv (Some (header :: recsA ++ recsB)) st)).2
       (main (set_intake_csv (Some (header :: recsB))
                (main (set_intake_csv (Some (header :: recsA)) st)).2)).2.
Proof.
  intros Hh Hrb Hok.
  set (stA := set_intake_csv (Some (header :: recsA)) st) in *.
  set (stS := set_intake_csv (Some (header :: recsA ++ recsB)) st).
  set (rowsA := DictReader (header :: recsA)) in *.
  set (rowsB := DictReader (header :: recsB)).
  (* the first run *)
  destruct (main_cases stA)
    as [(Hnone & _)|[(e & _ & Hm)|(fA & bs & HinA & HreadA & HresA & HsA)]];
    [discriminate|rewrite Hm in Hok; discriminate|].
  assert (fA = header :: recsA) by (simpl in HinA; congruence). subst fA.
  fold rowsA in HresA, HsA.
  set (LA := (for_rows rowsA (loop_entry bs stA)).2) in *.
  rewrite Hok in HresA.
  destruct (loop_then_load rowsA bs stA Hh HreadA Hrb) as (HloadA & _ & _).
  fold LA in HloadA.
  set (first := (main stA).2) in *.
  set (stB := set_intake_csv (Some (header :: recsB)) first).
  (* the single run *)
  assert (HreadS : (read_existing_bookings stS).1 = Ok bs).
  { rewrite <- HreadA. by apply read_existing_bookings_indep. }
  destruct (main_cases stS)
    as [(Hnone & _)|[(e & Hraise & _)|(fS & bsS & HinS & HreadS' & HresS & HsS)]];
    [discriminate|congruence|].
  assert (fS = header :: recsA ++ recsB) by (simpl in HinS; congruence).
  assert (bsS = bs) by congruence. subst fS bsS.
  rewrite DictReader_app in HresS, HsS. fold rowsA rowsB in HresS, HsS.
  rewrite for_rows_seq in HresS, HsS.
  destruct (for_rows_same_ledger rowsA (loop_entry bs stA) (loop_entry bs stS))
    as [HrA HlA]; [by repeat split|].
  fold LA in HlA.
  destruct (for_rows rowsA (loop_entry bs stS)) as [rS LSA]; simpl in HrA, HlA.
  rewrite <- HresA in HrA. subst rS.
  (* the second run *)
  assert (HreadB : (read_existing_bookings stB).1 = Ok (bookings LA)).
  { rewrite <- HloadA. apply read_existing_bookings_indep.
    simpl. by destruct HsA as (_ & -> & _). }
  destruct (main_cases stB)
    as [(Hnone & _)|[(e & Hraise & _)|(fB & bsB & HinB & HreadB' & HresB & HsB)]];
    [discriminate|congruence|].
  assert (fB = header :: recsB) by (simpl in HinB; congruence).
  assert (bsB = bookings LA) by congruence. subst fB bsB.
  fold rowsB in HresB, HsB.
  destruct (for_rows_same_ledger rowsB LSA (loop_entry (bookings LA) stB))
    as [HrB HlB].
  { destruct HlA as (He & Hj & Hb & Ho).
    destruct HsA as (_ & He' & Ho' & _ & Hj' & _).
    unfold same_ledger. simpl. rewrite He', Ho', Hj'. by repeat split. }
  split; [congruence|].
  eapply same_ledger_trans; [apply same_ledger_sym, same_files_ledger, HsS|].
  eapply same_ledger_trans; [exact HlB|]. by apply same_files_ledger.
Qed.

Lemma two_runs_as_one_witness :
  let recsA := [["Ada"; "ada@clinic.example"; "2025-09-01 09:00;2025-09-01 10:00"]] in
  let recsB := [["Bo"; "bo@clinic.example"; "2025-09-01 09:00;2025-09-01 09:30"];
                ["Cy"; "cy@clinic.example"; "2025-09-01 09:15"]] in
  let st := initial None None in
  existing_csv
    (main (RT := Civil.runtime)
       (set_intake_csv (Some (intake_header :: recsB))
          (main (RT := Civil.runtime)
             (set_intake_csv (Some (intake_header :: recsA)) st)).2)).2
  = Some (closed_file
            [["start"; "end"];
             ["2025-09-01T09:00:00"; "2025-09-01T09:30:00"];
             ["2025-09-01T09:30:00"; "2025-09-01T10:00:00"]])
  /\ same_ledger
       (main (RT := Civil.runtime)
          (set_intake_csv (Some (intake_header :: recsA ++ recsB)) st)).2
       (main (RT := Civil.runtime)
          (set_intake_csv (Some (intake_header :: recsB))
             (main (RT := Civil.runtime)
                (set_intake_csv (Some (intake_header :: recsA)) st)).2)).2.
Proof.
  intros recsA recsB st.
  assert (H1 : store_headed (existing_csv st)) by (left; reflexivity).
  assert (H2 : Forall (fun d => reads_back (RT := Civil.runtime) d
                                /\ reads_back (RT := Civil.runtime) (slot_end d))
                 (row_slots (RT := Civil.runtime)
                    (DictReader (intake_header :: recsA)))).
  { repeat (apply List.Forall_cons; [vm_compute; done|]). apply List.Forall_nil. }
  assert (H3 : (main (RT := Civil.runtime)
                  (set_intake_csv (Some (intake_header :: recsA)) st)).1 = Ok tt)
    by (vm_compute; reflexivity).
  split; [vm_compute; reflexivity|].
  exact (proj2 (two_runs_as_one (RT := Civil.runtime) st intake_header recsA recsB
                  H1 H2 H3)).
Defined.

(** ** The candidate list of a request *)

Section PrefsFacts.

Lemma split_go_sep (sep : ascii) (a b : string) :
  forall cur : string,
    Py.split_go sep cur (a +:+ String sep b)
    = Py.split_go sep cur a ++ Py.split_go sep EmptyString b.
Proof.
  induction a as [|c a IH]; intros cur; simpl.
  - by rewrite Ascii.eqb_refl.
  - destruct (Ascii.eqb c sep); [|apply IH].
    simpl. f_equal. apply IH.
Qed.

Lemma truthy_nonempty (s : string) : Py.truthy s = true -> s <> "".
Proof.
  unfold Py.truthy. intros H ->. discriminate.
Qed.

End PrefsFacts.

(** X19. The candidates of a text are read from left to right: the
    candidates of [a;b] are those of [a] followed by those of [b], so the order
    of preference is the order of writing; and no candidate is the empty
    text, whatever separators and blanks the field holds. *)
Theorem split_prefs_in_order (a b : string) :
  split_prefs (a +:+ ";" +:+ b) = split_prefs a ++ split_prefs b
  /\ Forall (fun p => p <> "") (split_prefs a).
Proof.
  split.
  - unfold split_prefs, Py.split.
    change (a +:+ ";" +:+ b) with (a +:+ String ";" b).
    by rewrite split_go_sep, filter_app, map_app.
  - unfold split_prefs. apply Forall_forall. intros p Hp.
    apply list_elem_of_fmap in Hp as (q & -> & Hq).
    apply list_elem_of_filter in Hq as [Hq _]. by apply truthy_nonempty.
Qed.

(** ** The request loop of [app.py] *)

Section PageFacts.
Context `{ART : AppRuntime}.

Lemma page_app_assoc (a b c : App.page) :
  App.page_app (App.page_app a b) c = App.page_app a (App.page_app b c).
Proof. unfold App.page_app. simpl. by rewrite !app_assoc. Qed.

Lemma page_app_blank (a : App.page) : App.page_app a App.blank_page = a.
Proof. destruct a. unfold App.page_app. simpl. by rewrite !app_nil_r. Qed.

(** One request adds to the page what it adds to a blank page. *)
Lemma handle_row_frame (row : gmap string App.cell) (pg : App.page) :
  App.handle_row row pg
  = ((App.handle_row row App.blank_page).1,
     App.page_app pg (App.handle_row row App.blank_page).2).
Proof.
  destruct pg as [evs ns]. unfold App.handle_row, App.page_app, App.blank_page.
  destruct (App.parse_at row "preferred_time") as [start_time|e];
    [|simpl; by rewrite !app_nil_r].
  destruct ((0 <=? start_time + App.ONE_HOUR)%Z
            && (start_time + App.ONE_HOUR <=? datetime_max)%Z);
    [|simpl; by rewrite !app_nil_r].
  destruct (App.conflicts start_time (start_time + App.ONE_HOUR)%Z
              App.existing_bookings) as [[|]|e];
    [| |simpl; by rewrite !app_nil_r].
  - destruct (row !! "name"), (row !! "preferred_time"); simpl;
      by rewrite ?app_nil_r.
  - destruct (row !! "name"), (row !! "preferred_time"); simpl;
      by rewrite ?app_nil_r.
Qed.

(** One request: one notice, and one event exactly when the notice is a
    success; or one of five exceptions and nothing added. *)
Lemma handle_row_outcomes (row : gmap string App.cell) (pg : App.page) :
  (exists n : App.notice,
      (App.handle_row row pg).1 = Ok tt
      /\ App.notices (App.handle_row row pg).2 = App.notices pg ++ [n]
      /\ length (App.cal_events (App.handle_row row pg).2)
         = (length (App.cal_events pg)
            + (if App.is_success n then 1 else 0))%nat)
  \/ (exists e, App.handle_row row pg = (Raise e, pg)
                /\ e ∈ [KeyError "preferred_time"; KeyError "name"; TypeError;
                        ValueError; OverflowError]).
Proof.
  unfold App.handle_row, App.parse_at.
  destruct (row !! "preferred_time") as [[text|shown]|] eqn:Ht;
    [|right; eexists; split; [done|set_solver]
     |right; eexists; split; [done|set_solver]].
  destruct (strptime text App.TIME_FORMAT) as [start_time|];
    [|right; eexists; split; [done|set_solver]].
  destruct ((0 <=? start_time + App.ONE_HOUR)%Z
            && (start_time + App.ONE_HOUR <=? datetime_max)%Z);
    [|right; eexists; split; [done|set_solver]].
  assert (Htable : forall s e, App.conflicts s e App.existing_bookings = Raise ValueError
                               \/ exists b, App.conflicts s e App.existing_bookings = Ok b).
  { intros s e. unfold App.existing_bookings, App.parse_at.
    repeat first
      [ rewrite lookup_insert_eq
      | rewrite lookup_insert_ne by done
      | progress cbn [App.conflicts]
      | progress unfold App.parse_at
      | match goal with
        | |- context [strptime ?t ?f] => destruct (strptime t f)
        | |- context [if ?c then _ else _] => destruct c
        end ]; eauto. }
  destruct (Htable start_time (start_time + App.ONE_HOUR)%Z) as [->|[b ->]];
    [right; eexists; split; [done|set_solver]|].
  destruct (row !! "name") as [name|];
    [|right; eexists; split; [done|set_solver]].
  left. destruct b; eexists; simpl; (split; [done|]); (split; [done|]);
    rewrite ?length_app; simpl; lia.
Qed.

End PageFacts.

(** X20. The conflict check of the page is the overlap check of the
    scheduler against its two fixed bookings: when [strptime] reads the four
    times of the table, the inner loop answers as [slot_overlaps] does on
    10:00-11:00 and 13:00-14:00 of 2025-09-01. *)
Theorem app_conflicts_is_overlap `{ART : AppRuntime} (s e : datetime) :
  App.clock_reads_table ->
  App.conflicts s e App.existing_bookings
  = Ok (slot_overlaps s e [(sept1 10 0, sept1 11 0); (sept1 13 0, sept1 14 0)]).
Proof.
  intros (H1 & H2 & H3 & H4).
  unfold App.existing_bookings, App.parse_at. cbn [slot_overlaps].
  repeat first
    [ rewrite lookup_insert_eq
    | rewrite lookup_insert_ne by done
    | rewrite H1 | rewrite H2 | rewrite H3 | rewrite H4
    | progress cbn [App.conflicts]
    | progress unfold App.parse_at
    | match goal with
      | |- context [if ?c then _ else _] => destruct c
      end ]; reflexivity.
Qed.

Lemma app_conflicts_is_overlap_witness :
  App.clock_reads_table (ART := App.civil_clock)
  /\ App.conflicts (ART := App.civil_clock) (sept1 10 30) (sept1 11 30)
       App.existing_bookings
     = Ok true
  /\ App.conflicts (ART := App.civil_clock) (sept1 11 0) (sept1 12 0)
       App.existing_bookings
     = Ok false.
Proof.
  assert (H : App.clock_reads_table (ART := App.civil_clock))
    by (vm_compute; repeat split).
  split; [exact H|].
  rewrite !(app_conflicts_is_overlap (ART := App.civil_clock) _ _ H).
  split; reflexivity.
Defined.

(** X21. The page never adds an accepted request to the bookings it checks
    against: what a list of requests adds to the page (events, notices, and
    the way the loop ends) is what it adds to a blank page, whatever was
    accepted before. A free hour is given to every request that asks for
    it. *)
Theorem app_requests_are_independent `{ART : AppRuntime}
    (rows : list (gmap string App.cell)) (pg : App.page) :
  App.handle_rows rows pg
  = ((App.handle_rows rows App.blank_page).1,
     App.page_app pg (App.handle_rows rows App.blank_page).2).
Proof.
  revert pg. induction rows as [|row rest IH]; intros pg; simpl.
  - by rewrite page_app_blank.
  - rewrite (handle_row_frame row pg).
    destruct (App.handle_row row App.blank_page) as [[[]|e] o1]; simpl; [|done].
    rewrite (IH (App.page_app pg o1)), (IH o1). simpl.
    by rewrite page_app_assoc.
Qed.

(** X22. One notice per request: when the loop of the page ends normally,
    it has shown exactly one notice for each request and added one event for
    each success; otherwise it stopped on one of five exceptions: KeyError for
    a missing preferred_time or name column, TypeError for a preferred_time
    cell that is not text (an empty field, which pandas reads as NaN, or a
    number), ValueError for a text that [strptime] rejects, OverflowError for
    a time in the last hour of the datetime range. *)
Theorem app_one_notice_per_request `{ART : AppRuntime}
    (rows : list (gmap string App.cell)) (pg : App.page) :
  ((App.handle_rows rows pg).1 = Ok tt
   /\ exists new : list App.notice,
        App.notices (App.handle_rows rows pg).2 = App.notices pg ++ new
        /\ length new = length rows
        /\ length (App.cal_events (App.handle_rows rows pg).2)
           = (length (App.cal_events pg)
              + length (filter (fun n => App.is_success n = true) new))%nat)
  \/ (exists e, (App.handle_rows rows pg).1 = Raise e
                /\ e ∈ [KeyError "preferred_time"; KeyError "name"; TypeError;
                        ValueError; OverflowError]).
Proof.
  revert pg. induction rows as [|row rest IH]; intros pg; simpl.
  - left. split; [done|]. exists []. simpl. rewrite app_nil_r. split; [done|].
    split; [done|lia].
  - destruct (handle_row_outcomes row pg) as [(n & Hok & Hn & Hev)|(e & -> & He)];
      [|right; by exists e].
    destruct (App.handle_row row pg) as [[[]|e] pg1]; simpl in *; [|done].
    destruct (IH pg1) as [(Hok' & new & Hnew & Hlen & Hev')|Hraise]; [|by right].
    left. split; [done|]. exists (n :: new).
    rewrite Hnew, Hn, <- app_assoc. split; [done|]. simpl.
    split; [by rewrite Hlen|].
    rewrite Hev', Hev, filter_cons.
    destruct (App.is_success n); case_decide; simpl; try done; lia.
Qed.
